(** * webdev-mcp: the screen-capture core of [src/take-screenshot.ts]

    A shallow embedding of [getAvailableScreens] and [takeScreenshot].
    The two functions are asynchronous and effectful: they read the host
    platform, run child processes, touch temporary files and log to the
    console.  They are modelled in a state-and-exception monad over a
    [World] (the files on disk, the trace of effects, the clock), with
    the behaviour of everything outside the program (the operating
    system, the child processes, the image library) given by an [Env]. *)

From Stdlib Require Import ZArith String Ascii List Bool Lia DecimalString.
From Stdlib.Strings Require Import Byte.
From stdpp Require Import base option list gmap strings.

Local Open Scope Z_scope.
Local Open Scope string_scope.

(** ** JavaScript string primitives used by the source

    Strings are sequences of code units below 256 ([Ascii.ascii]); the
    output of the introspection tool is plain text.  Each function
    follows the ECMAScript behaviour of the method it is named after. *)

Module Js.

Definition nl : string := String "010"%char EmptyString.
Definition dquote : string := String "034"%char EmptyString.

Definition code (c : ascii) : nat := nat_of_ascii c.

(** LineTerminator: LF and CR (the others are above 255). *)
Definition is_line_terminator (c : ascii) : bool :=
  (code c =? 10)%nat || (code c =? 13)%nat.

(** WhiteSpace and LineTerminator, the class of [\s] and of [trim]:
    TAB, VT, FF, SP, NBSP, LF, CR. *)
Definition is_white_space (c : ascii) : bool :=
  (code c =? 9)%nat || (code c =? 11)%nat || (code c =? 12)%nat ||
  (code c =? 32)%nat || (code c =? 160)%nat || is_line_terminator c.

(** The class of [\w]: letters, digits and the underscore. *)
Definition is_word_char (c : ascii) : bool :=
  ((48 <=? code c) && (code c <=? 57))%nat ||
  ((65 <=? code c) && (code c <=? 90))%nat ||
  ((97 <=? code c) && (code c <=? 122))%nat ||
  (code c =? 95)%nat.

Definition is_empty (s : string) : bool :=
  match s with EmptyString => true | String _ _ => false end.

(** [s.includes(sub)] *)
Fixpoint includes (s sub : string) : bool :=
  String.prefix sub s ||
  match s with
  | EmptyString => false
  | String _ s' => includes s' sub
  end.

Fixpoint trimStart (s : string) : string :=
  match s with
  | EmptyString => EmptyString
  | String c s' => if is_white_space c then trimStart s' else s
  end.

Fixpoint trimEnd (s : string) : string :=
  match s with
  | EmptyString => EmptyString
  | String c s' =>
      let t := trimEnd s' in
      if is_white_space c && is_empty t then EmptyString else String c t
  end.

(** [s.trim()] *)
Definition trim (s : string) : string := trimEnd (trimStart s).

(** [s.split(sep)] for a non-empty literal separator: the piece that is
    being read, and the pieces after it.  [skip] counts the code units
    of a separator still to be passed over. *)
Fixpoint split_go (sep : string) (skip : nat) (s : string) : string * list string :=
  match s with
  | EmptyString => (EmptyString, [])
  | String c s' =>
      match skip with
      | S k => split_go sep k s'
      | O =>
          if String.prefix sep s
          then (EmptyString,
                let '(p, ps) := split_go sep (String.length sep - 1) s' in p :: ps)
          else let '(p, ps) := split_go sep 0 s' in (String c p, ps)
      end
  end.

Definition split (s sep : string) : list string :=
  let '(p, ps) := split_go sep 0 s in p :: ps.

(** The longest prefix of [s] in the class [p]: its length and the rest. *)
Fixpoint span (p : ascii -> bool) (s : string) : nat * string :=
  match s with
  | EmptyString => (O, EmptyString)
  | String c s' =>
      if p c then let '(n, r) := span p s' in (S n, r) else (O, s)
  end.

(** A match of [\s*\w+:] at the head of [s], as its length.  The three
    classes (white space, word characters, the colon) are disjoint, so
    the greedy match is the only one. *)
Definition marker_match (s : string) : option nat :=
  let '(n1, r1) := span is_white_space s in
  let '(n2, r2) := span is_word_char r1 in
  match n2, r2 with
  | S _, String c _ =>
      if (code c =? 58)%nat then Some (n1 + n2 + 1)%nat else None
  | _, _ => None
  end.

(** [s.split(/^\s*\w+:/m)]: [bol] tells whether the position is the
    start of the text or follows a line terminator, where [^] matches
    under the [m] flag. *)
Fixpoint split_marker_go (skip : nat) (bol : bool) (s : string) : string * list string :=
  match s with
  | EmptyString => (EmptyString, [])
  | String c s' =>
      let bol' := is_line_terminator c in
      match skip with
      | S k => split_marker_go k bol' s'
      | O =>
          match (if bol then marker_match s else None) with
          | Some n =>
              (EmptyString,
               let '(p, ps) := split_marker_go (n - 1) bol' s' in p :: ps)
          | None =>
              let '(p, ps) := split_marker_go 0 bol' s' in (String c p, ps)
          end
      end
  end.

Definition split_marker (s : string) : list string :=
  let '(p, ps) := split_marker_go 0 true s in p :: ps.

(** The decimal text of an integer, as a template literal prints it. *)
Definition string_of_Z (z : Z) : string := NilZero.string_of_int (Z.to_int z).

(** [xs[1]?.trim() || dflt] *)
Definition second_trimmed_or (xs : list string) (dflt : string) : string :=
  match xs !! 1%nat with
  | Some x => if is_empty (trim x) then dflt else trim x
  | None => dflt
  end.

End Js.

(** ** [Buffer.prototype.toString("base64")] *)

Module Base64.

Definition alphabet : string :=
  "ABCDEFGHIJKLMNOPQRSTUVWXYZabcdefghijklmnopqrstuvwxyz0123456789+/".

Definition pad : ascii := "="%char.

Definition digit (n : N) : ascii :=
  match String.get (N.to_nat (N.land n 63)) alphabet with
  | Some c => c
  | None => pad
  end.

Definition quad (n : N) (keep : nat) : string :=
  String (digit (N.shiftr n 18))
    (String (digit (N.shiftr n 12))
       (String (if (2 <=? keep)%nat then digit (N.shiftr n 6) else pad)
          (String (if (3 <=? keep)%nat then digit n else pad) EmptyString))).

Fixpoint encode (bs : list byte) : string :=
  match bs with
  | [] => EmptyString
  | [a] => quad (N.shiftl (Byte.to_N a) 16) 1
  | [a; b] => quad (N.lor (N.shiftl (Byte.to_N a) 16) (N.shiftl (Byte.to_N b) 8)) 2
  | a :: b :: c :: rest =>
      quad (N.lor (N.lor (N.shiftl (Byte.to_N a) 16) (N.shiftl (Byte.to_N b) 8))
              (Byte.to_N c)) 3
      +:+ encode rest
  end.

End Base64.

(** ** The world outside the program *)

Inductive Result (A : Type) : Type :=
| Ok (value : A)
| Err (message : string).
Arguments Ok {A} value.
Arguments Err {A} message.

(** The options of [sharp(...).resize(width, height, options)]. *)
Inductive Fit := Cover | Contain | Fill | Inside | Outside.

Record Rgba := { r : Z; g : Z; b : Z; alpha : Z }.

Record ResizeOptions := { fit : Fit; background : Rgba }.

(** What a call does to the world, in the order it does it. *)
Inductive Event :=
| ExecCmd (cmd : string) (timeout : option Z)
| SharpResize (input : string) (width height : Z) (opts : ResizeOptions) (output : string)
| ReadFile (path : string)
| Unlink (path : string)
| ConsoleWarn (msg : string)
| ConsoleError (label : string) (message : string).

Record World := {
  files : gmap string (list byte);
  trace : list Event;
  clock_reads : nat
}.

(** The host: its platform tag and temporary directory, the value of
    each successive [Date.now()], what a child process answers and
    leaves on disk (it may depend on everything that happened before),
    and the image that the resize library computes. *)
Record Env := {
  os_platform : string;
  os_tmpdir : string;
  date_now : nat -> Z;
  run_command : string -> option Z -> World -> Result string * gmap string (list byte);
  sharp_image : list byte -> Z -> Z -> ResizeOptions -> Result (list byte)
}.

(** ** Child processes under [child_process.exec]

    How a host of Node runs a command.  A [Process] is what the command
    would do if nobody stopped it: how many milliseconds it lasts, what
    [exec] then answers and what is on disk at its end; and, should the
    parent kill it before, the error of [exec] and the disk at that
    moment.  [node_exec] is the rule of [exec] for its [timeout] option:
    absent, it is 0; at 0 the parent waits for the end of the child; a
    positive number of milliseconds is a limit, past which the child is
    killed and [exec] fails; a negative number is refused before any
    child is started. *)

Record Process := {
  lasts : Z;
  outcome : Result string * gmap string (list byte);
  when_killed : string * gmap string (list byte)
}.

Definition node_exec (range_error : string) (p : Process) (w : World)
    (timeout : option Z) : Result string * gmap string (list byte) :=
  match timeout with
  | None => outcome p
  | Some t =>
      if (t <? 0)%Z then (Err range_error, files w)
      else if (t =? 0)%Z || (lasts p <=? t)%Z then outcome p
      else (Err (fst (when_killed p)), snd (when_killed p))
  end.

(** A host described by the processes that its commands start. *)
Record Host := {
  platform : string;
  tmpdir : string;
  now : nat -> Z;
  processes : string -> World -> Process;
  range_error : string;
  sharp : list byte -> Z -> Z -> ResizeOptions -> Result (list byte)
}.

Definition node_env (h : Host) : Env :=
  {| os_platform := platform h;
     os_tmpdir := tmpdir h;
     date_now := now h;
     run_command := fun cmd timeout w =>
       node_exec (range_error h) (processes h cmd w) w timeout;
     sharp_image := sharp h |}.

(** The same host with other durations for its processes. *)
Definition with_durations (d : string -> World -> Z) (h : Host) : Host :=
  {| platform := platform h;
     tmpdir := tmpdir h;
     now := now h;
     processes := fun cmd w =>
       {| lasts := d cmd w;
          outcome := outcome (processes h cmd w);
          when_killed := when_killed (processes h cmd w) |};
     range_error := range_error h;
     sharp := sharp h |}.

(** ** A monad for asynchronous code that may throw *)

Definition M (A : Type) : Type := World -> Result A * World.

Definition ret {A} (a : A) : M A := fun w => (Ok a, w).

Definition bind {A B} (m : M A) (k : A -> M B) : M B :=
  fun w =>
    match m w with
    | (Ok a, w') => k a w'
    | (Err e, w') => (Err e, w')
    end.

Definition throw {A} (message : string) : M A := fun w => (Err message, w).

Definition try_catch {A} (m : M A) (handler : string -> M A) : M A :=
  fun w =>
    match m w with
    | (Ok a, w') => (Ok a, w')
    | (Err e, w') => handler e w'
    end.

Declare Scope async_scope.
Delimit Scope async_scope with async.
Notation "x <- m ;; k" := (bind m (fun x => k))
  (at level 100, m at next level, right associativity) : async_scope.
Notation "m ;;; k" := (bind m (fun _ => k))
  (at level 100, right associativity) : async_scope.
Local Open Scope async_scope.

Definition record_event (e : Event) (w : World) : World :=
  {| files := files w; trace := (trace w ++ [e])%list; clock_reads := clock_reads w |}.

Definition set_files (fs : gmap string (list byte)) (w : World) : World :=
  {| files := fs; trace := trace w; clock_reads := clock_reads w |}.

Section Runtime.

Variable env : Env.

(** [promisify(exec)(cmd, {timeout})], resolved with the standard output *)
Definition execAsync (cmd : string) (timeout : option Z) : M string :=
  fun w =>
    let '(res, fs) := run_command env cmd timeout w in
    (res, set_files fs (record_event (ExecCmd cmd timeout) w)).

Definition Date_now : M Z :=
  fun w =>
    (Ok (date_now env (clock_reads w)),
     {| files := files w; trace := trace w; clock_reads := S (clock_reads w) |}).

(** [path.join] of a normalized directory and a file name *)
Definition path_join (dir name : string) : string :=
  dir +:+ (if String.eqb (os_platform env) "win32" then "\" else "/") +:+ name.

Definition console_warn (msg : string) : M unit :=
  fun w => (Ok tt, record_event (ConsoleWarn msg) w).

Definition console_error (label message : string) : M unit :=
  fun w => (Ok tt, record_event (ConsoleError label message) w).

Definition enoent (call path : string) : string :=
  "ENOENT: no such file or directory, " +:+ call +:+ " '" +:+ path +:+ "'".

(** [fs.promises.readFile(path)] *)
Definition readFile (path : string) : M (list byte) :=
  fun w =>
    let w' := record_event (ReadFile path) w in
    match files w !! path with
    | Some data => (Ok data, w')
    | None => (Err (enoent "open" path), w')
    end.

(** [fs.promises.unlink(path)] *)
Definition unlink (path : string) : M unit :=
  fun w =>
    let w' := record_event (Unlink path) w in
    match files w !! path with
    | Some _ => (Ok tt, set_files (delete path (files w)) w')
    | None => (Err (enoent "unlink" path), w')
    end.

(** [sharp(input).resize(width, height, opts).toFile(output)] *)
Definition sharp_resize_toFile (input : string) (width height : Z)
    (opts : ResizeOptions) (output : string) : M unit :=
  fun w =>
    let w' := record_event (SharpResize input width height opts output) w in
    match files w !! input with
    | None => (Err ("Input file is missing: " +:+ input), w')
    | Some data =>
        match sharp_image env data width height opts with
        | Ok image => (Ok tt, set_files (<[output := image]> (files w)) w')
        | Err e => (Err e, w')
        end
    end.

End Runtime.

(** ** The program: [src/take-screenshot.ts] *)

Record ScreenDescriptor := { id : Z; description : string }.

(** The [options] argument of [takeScreenshot]; an absent field is [None]. *)
Record Options := {
  width : option Z;
  height : option Z;
  fullPage : option bool;
  waitForSelector : option string;
  timeout : option Z;
  screenId : option Z
}.

(** The three variables of the scan of one section (lines 157-159). *)
Record Fields := {
  displayName : string;
  resolution : string;
  displayType : string
}.

Definition no_fields : Fields :=
  {| displayName := EmptyString; resolution := EmptyString; displayType := EmptyString |}.

Definition main_display : list ScreenDescriptor :=
  [ {| id := 1; description := "Main Display" |} ].

Definition primary_screen : list ScreenDescriptor :=
  [ {| id := 0;
       description := "Primary Screen (multi-screen selection not supported yet)" |} ].

(** The body of the loop over the lines of a section (lines 163-172). *)
Definition scan_line (f : Fields) (line : string) : Fields :=
  if Js.includes line "Display Type:" || Js.includes line "Type:" then
    {| displayName := displayName f;
       resolution := resolution f;
       displayType := Js.second_trimmed_or (Js.split line ":") "Unknown" |}
  else if Js.includes line "Resolution:" then
    {| displayName := displayName f;
       resolution := Js.second_trimmed_or (Js.split line ":") EmptyString;
       displayType := displayType f |}
  else if Js.includes line "Name:" then
    {| displayName := Js.second_trimmed_or (Js.split line ":") EmptyString;
       resolution := resolution f;
       displayType := displayType f |}
  else f.

Definition scan_lines (lines : list string) : Fields :=
  fold_left scan_line lines no_fields.

Definition section_lines (section : string) : list string :=
  map Js.trim (Js.split section Js.nl).

(** Lines 176-179. *)
Definition describe (f : Fields) : string :=
  let description :=
    if negb (Js.is_empty (displayName f)) then displayName f
    else if negb (Js.is_empty (displayType f)) then displayType f
    else "Display" in
  if negb (Js.is_empty (resolution f))
  then description +:+ " (" +:+ resolution f +:+ ")"
  else description.

(** One turn of the loop over the sections (lines 153-186). *)
Definition section_display (i : nat) (section : string) : ScreenDescriptor :=
  {| id := Z.of_nat i + 1;
     description := describe (scan_lines (section_lines section)) |}.

(** Lines 137-144. *)
Definition is_display_section (section : string) : bool :=
  Js.includes section "Display Type" ||
  Js.includes section "Resolution" ||
  Js.includes section "Type:".

Definition displaySections (stdout : string) : list string :=
  filter (fun section => is_display_section section = true) (Js.split_marker stdout).

(** Lines 124-126. *)
Definition displayData (stdout : string) : list string :=
  filter (fun section => (0 < String.length (Js.trim section))%nat)
    (Js.split stdout "Graphics/Displays:").

(** Lines 200-202. *)
Definition resolution_lines (screenInfo : string) : list string :=
  filter (fun line => Js.includes line "Resolution" = true) (Js.split screenInfo Js.nl).

(** One turn of the loop over the resolution lines (lines 209-219). *)
Definition resolution_display (i : nat) (line : string) : ScreenDescriptor :=
  let resolution := Js.second_trimmed_or (Js.split line ":") EmptyString in
  {| id := Z.of_nat i + 1;
     description :=
       if (i =? 0)%nat
       then "Main Display (" +:+ resolution +:+ ")"
       else "External Display " +:+ Js.string_of_Z (Z.of_nat i)
              +:+ " (" +:+ resolution +:+ ")" |}.

Section Program.

Variable env : Env.

(** Lines 194-224: the second look at the displays. *)
Definition alternative_method (displays : list ScreenDescriptor)
  : M (list ScreenDescriptor) :=
  if (length displays <=? 1)%nat then
    try_catch
      (screenInfo <- execAsync env "system_profiler SPDisplaysDataType | grep Resolution" None ;;
       let resolutions := resolution_lines screenInfo in
       if (1 <? length resolutions)%nat
       then ret (imap resolution_display resolutions)
       else ret displays)
      (fun err =>
         console_error "Error getting alternative screen info:" err ;;;
         ret displays)
  else ret displays.

(** Lines 114-251: what stands inside the [try] of [getAvailableScreens]. *)
Definition getAvailableScreens_try : M (list ScreenDescriptor) :=
  let platform := os_platform env in
  if String.eqb platform "darwin" then
    stdout <- execAsync env "system_profiler SPDisplaysDataType" None ;;
    if (length (displayData stdout) =? 0)%nat then ret main_display
    else
      let sections := displaySections stdout in
      if (length sections =? 0)%nat then ret main_display
      else
        let displays := imap section_display sections in
        let displays :=
          if (length displays =? 0)%nat then (displays ++ main_display)%list else displays in
        alternative_method displays
  else if String.eqb platform "win32" then ret primary_screen
  else if String.eqb platform "linux" then ret primary_screen
  else throw ("Unsupported platform: " +:+ platform).

Definition getAvailableScreens : M (list ScreenDescriptor) :=
  try_catch getAvailableScreens_try
    (fun error =>
       console_error "Error listing screens:" error ;;;
       ret main_display).

(** [options.timeout || 0] *)
Definition timeout_or_zero (options : Options) : Z :=
  match timeout options with
  | Some t => if (t =? 0)%Z then 0 else t
  | None => 0
  end.

(** [options.screenId !== undefined ? options.screenId : 1] *)
Definition resolve_screenId (options : Options) : Z :=
  match screenId options with
  | Some n => n
  | None => 1
  end.

Definition quoted (path : string) : string := Js.dquote +:+ path +:+ Js.dquote.

Definition darwin_display_cmd (screenId : Z) (screenshotPath : string) : string :=
  "screencapture -D " +:+ Js.string_of_Z screenId +:+ " -x " +:+ quoted screenshotPath.

Definition darwin_main_cmd (screenshotPath : string) : string :=
  "screencapture -x " +:+ quoted screenshotPath.

Definition win32_cmd (screenshotPath : string) : string :=
  "powershell -command " +:+ Js.dquote +:+
  "Add-Type -AssemblyName System.Windows.Forms; [System.Windows.Forms.SendKeys]::SendWait('{PRTSC}'); Start-Sleep -Milliseconds 500; $img = [System.Windows.Forms.Clipboard]::GetImage(); $img.Save('"
  +:+ screenshotPath +:+ "')" +:+ Js.dquote.

Definition linux_cmd (screenshotPath : string) : string :=
  "import -window root " +:+ quoted screenshotPath.

(** Lines 33-61: the choice of the capture command. *)
Definition select_command (screenId : Z) (screenshotPath : string) : M string :=
  let platform := os_platform env in
  if String.eqb platform "darwin" then
    screens <- getAvailableScreens ;;
    let displayExists := existsb (fun screen => (id screen =? screenId)%Z) screens in
    if displayExists || (screenId =? 1)%Z then
      ret (darwin_display_cmd screenId screenshotPath)
    else
      console_warn ("Display ID " +:+ Js.string_of_Z screenId
                      +:+ " not found, defaulting to main display") ;;;
      ret (darwin_main_cmd screenshotPath)
  else if String.eqb platform "win32" then ret (win32_cmd screenshotPath)
  else if String.eqb platform "linux" then ret (linux_cmd screenshotPath)
  else throw ("Unsupported platform: " +:+ platform).

Definition white : Rgba := {| r := 255; g := 255; b := 255; alpha := 1 |}.

Definition resize_options : ResizeOptions := {| fit := Contain; background := white |}.

(** Lines 66-100: the optional resize, the encoding and the clean-up. *)
Definition encode_and_clean (screenId : Z) (tmpDir screenshotPath : string) : M string :=
  if (screenId =? 2)%Z then
    now <- Date_now env ;;
    let resizedPath :=
      path_join env tmpDir ("screenshot-resized-" +:+ Js.string_of_Z now +:+ ".png") in
    sharp_resize_toFile env screenshotPath 819 1456 resize_options resizedPath ;;;
    unlink screenshotPath ;;;
    screenshotData <- readFile resizedPath ;;
    let base64Data := Base64.encode screenshotData in
    unlink resizedPath ;;;
    ret base64Data
  else
    screenshotData <- readFile screenshotPath ;;
    let base64Data := Base64.encode screenshotData in
    unlink screenshotPath ;;;
    ret base64Data.

(** Lines 26-100: what stands inside the [try] of [takeScreenshot]. *)
Definition takeScreenshot_try (url : string) (options : Options) : M string :=
  let screenId := resolve_screenId options in
  let tmpDir := os_tmpdir env in
  now <- Date_now env ;;
  let screenshotPath :=
    path_join env tmpDir ("screenshot-" +:+ Js.string_of_Z now +:+ ".png") in
  cmd <- select_command screenId screenshotPath ;;
  _ <- execAsync env cmd (Some (timeout_or_zero options)) ;;
  encode_and_clean screenId tmpDir screenshotPath.

Definition takeScreenshot (url : string) (options : Options) : M string :=
  try_catch (takeScreenshot_try url options)
    (fun error =>
       console_error "Error taking screenshot:" error ;;;
       throw ("Failed to capture screenshot: " +:+ error)).

(** The two temporary paths of a call that starts in [w]. *)
Definition screenshotPath_at (w : World) : string :=
  path_join env (os_tmpdir env)
    ("screenshot-" +:+ Js.string_of_Z (date_now env (clock_reads w)) +:+ ".png").

Definition resizedPath_at (w : World) : string :=
  path_join env (os_tmpdir env)
    ("screenshot-resized-" +:+ Js.string_of_Z (date_now env (S (clock_reads w))) +:+ ".png").

End Program.

(** ** Vocabulary of the statements *)

Definition supported_platform (platform : string) : bool :=
  String.eqb platform "darwin" || String.eqb platform "win32" ||
  String.eqb platform "linux".

Definition introspection_cmd : string := "system_profiler SPDisplaysDataType".
Definition rescan_cmd : string := "system_profiler SPDisplaysDataType | grep Resolution".

(** The world once [Date.now()] has been read. *)
Definition tick (w : World) : World :=
  {| files := files w; trace := trace w; clock_reads := S (clock_reads w) |}.

(** The world once a child process has ended. *)
Definition after_exec (env : Env) (cmd : string) (timeout : option Z) (w : World) : World :=
  set_files (snd (run_command env cmd timeout w)) (record_event (ExecCmd cmd timeout) w).

Definition is_resize (e : Event) : bool :=
  match e with SharpResize _ _ _ _ _ => true | _ => false end.

Definition is_warning (e : Event) : bool :=
  match e with ConsoleWarn _ => true | _ => false end.

(** The effects of an enumeration: child processes started without
    options, and error logs. *)
Definition is_introspection (e : Event) : bool :=
  match e with
  | ExecCmd _ None => true
  | ConsoleError _ _ => true
  | _ => false
  end.

(** The label that a line carries for the scan of a section: the
    branches of lines 163-172 are tried in this order, and a line
    counts for the first one that accepts it. *)
Inductive Label := DisplayType | Resolution | Name.

Definition line_label (line : string) : option Label :=
  if Js.includes line "Display Type:" || Js.includes line "Type:" then Some DisplayType
  else if Js.includes line "Resolution:" then Some Resolution
  else if Js.includes line "Name:" then Some Name
  else None.

Definition line_value (l : Label) (line : string) : string :=
  Js.second_trimmed_or (Js.split line ":")
    (match l with DisplayType => "Unknown" | _ => EmptyString end).

Definition field (l : Label) (f : Fields) : string :=
  match l with
  | DisplayType => displayType f
  | Resolution => resolution f
  | Name => displayName f
  end.

Definition label_eqb (a b : Label) : bool :=
  match a, b with
  | DisplayType, DisplayType | Resolution, Resolution | Name, Name => true
  | _, _ => false
  end.

Definition carries (l : Label) (line : string) : bool :=
  match line_label line with
  | Some l' => label_eqb l l'
  | None => false
  end.

(** The events that a call added to the trace. *)
Definition new_events (w w' : World) : list Event :=
  drop (length (trace w)) (trace w').

(** What may follow the capture command: the resize, the read, the
    deletions, and the error log of the handler. *)
Definition is_after_capture (e : Event) : bool :=
  match e with
  | SharpResize _ _ _ _ _ | ReadFile _ | Unlink _ | ConsoleError _ _ => true
  | _ => false
  end.

Definition Fit_eqb (a b : Fit) : bool :=
  match a, b with
  | Cover, Cover | Contain, Contain | Fill, Fill | Inside, Inside
  | Outside, Outside => true
  | _, _ => false
  end.

(** The only shape of resize that a capture may ask for. *)
Definition is_canvas_resize (e : Event) : bool :=
  match e with
  | SharpResize _ wd ht o _ =>
      (wd =? 819)%Z && (ht =? 1456)%Z && Fit_eqb (fit o) Contain &&
      (r (background o) =? 255)%Z && (g (background o) =? 255)%Z &&
      (b (background o) =? 255)%Z && (alpha (background o) =? 1)%Z
  | _ => false
  end.

(** The events of lines 66-100 for a given screen. *)
Definition cleanup_event (screenId : Z) (e : Event) : bool :=
  match e with
  | SharpResize _ _ _ _ _ => (screenId =? 2)%Z && is_canvas_resize e
  | ReadFile _ | Unlink _ => true
  | _ => false
  end.

(** The events that a capture with these options may add. *)
Definition capture_event (options : Options) (e : Event) : bool :=
  match e with
  | ExecCmd _ None => true
  | ExecCmd _ (Some t) => (t =? timeout_or_zero options)%Z
  | SharpResize _ _ _ _ _ =>
      (resolve_screenId options =? 2)%Z && is_canvas_resize e
  | _ => true
  end.

(** The same options with another [screenId] field. *)
Definition with_screenId (options : Options) (sid : option Z) : Options :=
  {| width := width options; height := height options; fullPage := fullPage options;
     waitForSelector := waitForSelector options; timeout := timeout options;
     screenId := sid |}.

(** Ids run 1, 2, ... in list order. *)
Definition sequential (v : list ScreenDescriptor) : Prop :=
  forall i d, v !! i = Some d -> id d = Z.of_nat i + 1.

(** ** Concrete hosts and inputs *)

Module Scenario.

Definition empty_world : World := {| files := ∅; trace := []; clock_reads := 0 |}.

Definition options_for (sid : option Z) (t : option Z) : Options :=
  {| width := None; height := None; fullPage := None; waitForSelector := None;
     timeout := t; screenId := sid |}.

Definition browser_options (sid : option Z) (t : option Z) : Options :=
  {| width := Some 1280; height := Some 720; fullPage := Some true;
     waitForSelector := Some "#app"; timeout := t; screenId := sid |}.

Definition png : list byte := [x89; x50; x4e; x47].

Definition clock (n : nat) : Z := 1700000000000 + Z.of_nat n.

Definition shot : string := "/tmp/screenshot-1700000000000.png".

(** A capture tool that writes [png] to the capture path. *)
Definition capture_ok (w : World) : Result string * gmap string (list byte) :=
  (Ok EmptyString, <[shot := png]> (files w)).

(** The image library: it answers [image], or rejects the input. *)
Definition sharp_ok (data : list byte) (w h : Z) (o : ResizeOptions) : Result (list byte) :=
  Ok (data ++ [x00])%list.

Definition sharp_rejects (data : list byte) (w h : Z) (o : ResizeOptions) : Result (list byte) :=
  Err "Input buffer contains unsupported image format".

Definition host (platform : string) (sharp : list byte -> Z -> Z -> ResizeOptions -> Result (list byte)) : Env :=
  {| os_platform := platform; os_tmpdir := "/tmp"; date_now := clock;
     run_command := fun cmd t w => capture_ok w;
     sharp_image := sharp |}.

Definition freebsd : Env := host "freebsd" sharp_ok.
Definition linux : Env := host "linux" sharp_ok.
Definition linux_bad_image : Env := host "linux" sharp_rejects.

(** A macOS-class host whose two introspection commands answer
    [profile] and [rescan]. *)
Definition darwin (profile : string) (rescan : Result string) : Env :=
  {| os_platform := "darwin"; os_tmpdir := "/tmp"; date_now := clock;
     run_command := fun cmd t w =>
       if String.eqb cmd introspection_cmd then (Ok profile, files w)
       else if String.eqb cmd rescan_cmd then (rescan, files w)
       else capture_ok w;
     sharp_image := sharp_ok |}.

Definition lines (ls : list string) : string :=
  fold_right (fun l acc => l +:+ Js.nl +:+ acc) EmptyString ls.

(** One display whose type is printed twice. *)
Definition two_types : string :=
  lines ["Graphics/Displays:"; "  Display Type: LCD"; "  Display Type: OLED"].

(** Two displays; every resolution label opens its own line, so the
    section marker takes it. *)
Definition two_resolutions : string :=
  lines ["Graphics/Displays:"; "      Resolution: 1920 x 1080"; "      Resolution: 1280 x 720"].

Definition grep_two_resolutions : string :=
  lines ["      Resolution: 1920 x 1080"; "      Resolution: 1280 x 720"].

End Scenario.

(** A Linux-class host of Node whose capture tool needs eight seconds. *)
Module Timed.

Definition killed : string := "Command failed: import -window root".

Definition slow_capture (cmd : string) (w : World) : Process :=
  {| lasts := 8000;
     outcome := Scenario.capture_ok w;
     when_killed := (killed, files w) |}.

Definition slow_linux : Host :=
  {| platform := "linux"; tmpdir := "/tmp"; now := Scenario.clock;
     processes := slow_capture;
     range_error := "The value of options.timeout is out of range";
     sharp := Scenario.sharp_ok |}.

End Timed.

(** A descriptor whose description is not empty. *)
Definition described (d : ScreenDescriptor) : Prop :=
  Js.is_empty (description d) = false.

(** The resized path of lines 68-71 when they are reached in [w]. *)
Definition resized_in (env : Env) (tmp : string) (w : World) : string :=
  path_join env tmp
    ("screenshot-resized-" +:+ Js.string_of_Z (date_now env (clock_reads w)) +:+ ".png").

(** ** The tool handlers: [src/index.ts]

    The two handlers registered with the server call the core and turn
    its answer into content blocks.  [console.log] writes to the
    standard output, which the core never does, so the process is the
    [World] of the core together with the lines logged there. *)

Inductive ContentBlock :=
| TextContent (text : string)
| ImageContent (data : string) (mimeType : string).

Record Server := { host : World; stdout_log : list string }.

Definition Tool (A : Type) : Type := Server -> Result A * Server.

Definition tool_ret {A} (a : A) : Tool A := fun s => (Ok a, s).

Definition tool_bind {A B} (m : Tool A) (k : A -> Tool B) : Tool B :=
  fun s =>
    match m s with
    | (Ok a, s') => k a s'
    | (Err e, s') => (Err e, s')
    end.

Definition tool_try_catch {A} (m : Tool A) (handler : string -> Tool A) : Tool A :=
  fun s =>
    match m s with
    | (Ok a, s') => (Ok a, s')
    | (Err e, s') => handler e s'
    end.

(** [await m] for a call [m] into the core. *)
Definition await {A} (m : M A) : Tool A :=
  fun s =>
    let '(res, w') := m (host s) in
    (res, {| host := w'; stdout_log := stdout_log s |}).

Definition console_log (line : string) : Tool unit :=
  fun s => (Ok tt, {| host := host s; stdout_log := (stdout_log s ++ [line])%list |}).

Declare Scope tool_scope.
Delimit Scope tool_scope with tool.
Notation "x <- m ;; k" := (tool_bind m (fun x => k))
  (at level 100, m at next level, right associativity) : tool_scope.
Notation "m ;;; k" := (tool_bind m (fun _ => k))
  (at level 100, right associativity) : tool_scope.

Section Tools.

Variable env : Env.

(** Line 26 of [index.ts]. *)
Definition format_screen (screen : ScreenDescriptor) : string :=
  "Screen " +:+ Js.string_of_Z (id screen) +:+ ": " +:+ description screen.

(** Lines 19-50 of [index.ts]: the handler of the tool [listScreens]. *)
Definition listScreens_tool : Tool (list ContentBlock) :=
  tool_try_catch
    (console_log "Listing available screens..." ;;;
     screens <- await (getAvailableScreens env) ;;
     let screenList := String.concat Js.nl (map format_screen screens) in
     tool_ret [TextContent ("Available screens:" +:+ Js.nl +:+ screenList)])%tool
    (fun error =>
       (await (console_error "Error listing screens:" error) ;;;
        tool_ret [TextContent ("Error listing screens: " +:+ error)])%tool).

(** The options object built at lines 77-80 of [index.ts]. *)
Definition tool_options (targetScreenId : Z) (timeout : option Z) : Options :=
  {| width := None; height := None; fullPage := None; waitForSelector := None;
     timeout := timeout; screenId := Some targetScreenId |}.

(** Lines 71-110 of [index.ts]: the handler of the tool [takeScreenshot]. *)
Definition takeScreenshot_tool (screenId timeout : option Z) : Tool (list ContentBlock) :=
  tool_try_catch
    (let targetScreenId := match screenId with Some n => n | None => 1 end in
     console_log ("Taking screenshot of screen " +:+ Js.string_of_Z targetScreenId
                    +:+ "...") ;;;
     screenshot <- await (takeScreenshot env EmptyString
                            (tool_options targetScreenId timeout)) ;;
     console_log "Screenshot captured successfully" ;;;
     tool_ret
       [TextContent ("Screenshot of screen " +:+ Js.string_of_Z targetScreenId
                       +:+ " captured successfully");
        ImageContent screenshot "image/png"])%tool
    (fun error =>
       (await (console_error "Error taking screenshot:" error) ;;;
        tool_ret [TextContent ("Error taking screenshot: " +:+ error)])%tool).

End Tools.

(** More hosts: a capture tool that is not installed, and one that
    ends well without writing anything. *)
Module Cases.

Definition linux_no_tool : Env :=
  {| os_platform := "linux"; os_tmpdir := "/tmp"; date_now := Scenario.clock;
     run_command := fun cmd t w => (Err "Command failed: import: not found", files w);
     sharp_image := Scenario.sharp_ok |}.

Definition linux_silent : Env :=
  {| os_platform := "linux"; os_tmpdir := "/tmp"; date_now := Scenario.clock;
     run_command := fun cmd t w => (Ok EmptyString, files w);
     sharp_image := Scenario.sharp_ok |}.

Definition notes : string := "/tmp/notes.txt".

(** A world with a file of the user in the temporary directory. *)
Definition world_with_notes : World :=
  {| files := {[ notes := [x68; x69] ]}; trace := []; clock_reads := 0 |}.

Definition server (w : World) : Server := {| host := w; stdout_log := [] |}.

End Cases.

(** ** Reasoning about effects

    [steps R m]: whatever [m] returns, the world it leaves is related by
    [R] to the world it started in. *)

Definition steps (R : World -> World -> Prop) {A : Type} (m : M A) : Prop :=
  forall w, R w (snd (m w)).

(** The trace grew by events that all satisfy [P]. *)
Definition extends (P : Event -> bool) (w w' : World) : Prop :=
  exists evs, trace w' = (trace w ++ evs)%list /\ forallb P evs = true.

(** [Date.now()] was not read. *)
Definition same_clock (w w' : World) : Prop := clock_reads w' = clock_reads w.

Section Steps.

Variable R : World -> World -> Prop.
Hypothesis R_refl : forall w, R w w.
Hypothesis R_trans : forall w1 w2 w3, R w1 w2 -> R w2 w3 -> R w1 w3.

Lemma steps_ret {A} (a : A) : steps R (ret a).
Proof. intros w. apply R_refl. Qed.

Lemma steps_throw {A} (e : string) : steps R (@throw A e).
Proof. intros w. apply R_refl. Qed.

Lemma steps_bind {A B} (m : M A) (k : A -> M B) :
  steps R m -> (forall a, steps R (k a)) -> steps R (bind m k).
Proof.
  intros Hm Hk w. unfold bind.
  specialize (Hm w). destruct (m w) as [[a | e] w1]; simpl in *.
  - eapply R_trans; [exact Hm | apply Hk].
  - exact Hm.
Qed.

Lemma steps_try_catch {A} (m : M A) (h : string -> M A) :
  steps R m -> (forall e, steps R (h e)) -> steps R (try_catch m h).
Proof.
  intros Hm Hh w. unfold try_catch.
  specialize (Hm w). destruct (m w) as [[a | e] w1]; simpl in *.
  - exact Hm.
  - eapply R_trans; [exact Hm | apply Hh].
Qed.

End Steps.

Lemma extends_refl P w : extends P w w.
Proof. exists []. split; [symmetry; apply app_nil_r | reflexivity]. Qed.

Lemma extends_trans P w1 w2 w3 : extends P w1 w2 -> extends P w2 w3 -> extends P w1 w3.
Proof.
  intros [e1 [H1 F1]] [e2 [H2 F2]]. exists (e1 ++ e2)%list. split.
  - rewrite H2, H1. symmetry. apply app_assoc.
  - rewrite forallb_app, F1, F2. reflexivity.
Qed.

Lemma extends_one P e w fs :
  P e = true -> extends P w (set_files fs (record_event e w)).
Proof. intros H. exists [e]. simpl. rewrite H. split; reflexivity. Qed.

Lemma extends_weaken (P Q : Event -> bool) w w' :
  (forall e, P e = true -> Q e = true) -> extends P w w' -> extends Q w w'.
Proof.
  intros HPQ [evs [H F]]. exists evs. split; [exact H |].
  rewrite forallb_forall in *. intros e He. apply HPQ, F, He.
Qed.

Lemma same_clock_refl w : same_clock w w.
Proof. reflexivity. Qed.

Lemma same_clock_trans w1 w2 w3 : same_clock w1 w2 -> same_clock w2 w3 -> same_clock w1 w3.
Proof. unfold same_clock. congruence. Qed.

Section Primitives.

Variable env : Env.
Variable P : Event -> bool.

Lemma execAsync_extends cmd t :
  P (ExecCmd cmd t) = true -> steps (extends P) (execAsync env cmd t).
Proof.
  intros H w. unfold execAsync. destruct (run_command env cmd t w) as [res fs].
  simpl. apply extends_one, H.
Qed.

Lemma execAsync_clock cmd t : steps same_clock (execAsync env cmd t).
Proof.
  intros w. unfold execAsync. destruct (run_command env cmd t w). reflexivity.
Qed.

Lemma execAsync_eq cmd t w :
  execAsync env cmd t w = (fst (run_command env cmd t w), after_exec env cmd t w).
Proof.
  unfold execAsync, after_exec. destruct (run_command env cmd t w). reflexivity.
Qed.

Lemma Date_now_extends : steps (extends P) (Date_now env).
Proof. intros w. exists []. simpl. split; [symmetry; apply app_nil_r | reflexivity]. Qed.

Lemma console_error_extends l e :
  P (ConsoleError l e) = true -> steps (extends P) (console_error l e).
Proof. intros H w. apply (extends_one P _ w (files w)), H. Qed.

Lemma console_warn_extends m :
  P (ConsoleWarn m) = true -> steps (extends P) (console_warn m).
Proof. intros H w. apply (extends_one P _ w (files w)), H. Qed.

Lemma readFile_extends p :
  P (ReadFile p) = true -> steps (extends P) (readFile p).
Proof.
  intros H w. unfold readFile.
  destruct (files w !! p); simpl; apply (extends_one P _ w (files w)), H.
Qed.

Lemma unlink_extends p :
  P (Unlink p) = true -> steps (extends P) (unlink p).
Proof.
  intros H w. unfold unlink. destruct (files w !! p); simpl.
  - apply extends_one, H.
  - apply (extends_one P _ w (files w)), H.
Qed.

Lemma sharp_extends i wd ht o out :
  P (SharpResize i wd ht o out) = true ->
  steps (extends P) (sharp_resize_toFile env i wd ht o out).
Proof.
  intros H w. unfold sharp_resize_toFile. destruct (files w !! i); simpl.
  - destruct (sharp_image env l wd ht o); simpl.
    + apply extends_one, H.
    + apply (extends_one P _ w (files w)), H.
  - apply (extends_one P _ w (files w)), H.
Qed.

End Primitives.

(** Goals [steps (extends P) m] for straight-line code. *)
Ltac steps_extends :=
  repeat first
    [ apply steps_ret, extends_refl
    | apply steps_throw, extends_refl
    | apply Date_now_extends
    | apply unlink_extends; reflexivity
    | apply readFile_extends; reflexivity
    | apply console_error_extends; reflexivity
    | apply console_warn_extends; reflexivity
    | apply execAsync_extends; reflexivity
    | apply steps_bind; [apply extends_trans | | intros ?]
    | apply steps_try_catch; [apply extends_trans | | intros ?] ].

Lemma extends_new_events P w w' :
  extends P w w' ->
  trace w' = (trace w ++ new_events w w')%list /\ forallb P (new_events w w') = true.
Proof.
  intros [evs [H F]]. unfold new_events. rewrite H, drop_app_length. split; [reflexivity | exact F].
Qed.

(** ** The enumerator, path by path *)

Section Enumerator.

Variable env : Env.

(** The second look never throws: its own handler returns the list it
    was given. *)
Lemma alternative_method_eq displays w :
  alternative_method env displays w =
  if (length displays <=? 1)%nat then
    match fst (run_command env rescan_cmd None w) with
    | Ok screenInfo =>
        (Ok (if (1 <? length (resolution_lines screenInfo))%nat
             then imap resolution_display (resolution_lines screenInfo)
             else displays),
         after_exec env rescan_cmd None w)
    | Err e =>
        (Ok displays,
         record_event (ConsoleError "Error getting alternative screen info:" e)
           (after_exec env rescan_cmd None w))
    end
  else (Ok displays, w).
Proof.
  unfold alternative_method.
  destruct (length displays <=? 1)%nat; [| reflexivity].
  unfold try_catch, bind. fold rescan_cmd. rewrite execAsync_eq.
  destruct (fst (run_command env rescan_cmd None w)) as [info | e]; [| reflexivity].
  destruct (1 <? length (resolution_lines info))%nat; reflexivity.
Qed.

Lemma alternative_method_ok displays w :
  exists v, fst (alternative_method env displays w) = Ok v.
Proof.
  rewrite alternative_method_eq.
  destruct (length displays <=? 1)%nat; [| eexists; reflexivity].
  destruct (fst (run_command env rescan_cmd None w)); eexists; reflexivity.
Qed.

Lemma getAvailableScreens_darwin_eq w :
  os_platform env = "darwin" ->
  getAvailableScreens env w =
  match fst (run_command env introspection_cmd None w) with
  | Err e =>
      (Ok main_display,
       record_event (ConsoleError "Error listing screens:" e)
         (after_exec env introspection_cmd None w))
  | Ok stdout =>
      if (length (displayData stdout) =? 0)%nat
      then (Ok main_display, after_exec env introspection_cmd None w)
      else if (length (displaySections stdout) =? 0)%nat
      then (Ok main_display, after_exec env introspection_cmd None w)
      else alternative_method env (imap section_display (displaySections stdout))
             (after_exec env introspection_cmd None w)
  end.
Proof.
  intros Hp. unfold getAvailableScreens, getAvailableScreens_try, try_catch, bind.
  rewrite Hp, String.eqb_refl. cbv beta iota. fold introspection_cmd.
  rewrite execAsync_eq.
  destruct (fst (run_command env introspection_cmd None w)) as [stdout | e];
    [| reflexivity].
  destruct (length (displayData stdout) =? 0)%nat; [reflexivity |].
  destruct (length (displaySections stdout) =? 0)%nat eqn:Hs; [reflexivity |].
  rewrite length_imap, Hs.
  set (w1 := after_exec env introspection_cmd None w).
  set (ds := imap section_display (displaySections stdout)).
  destruct (alternative_method_ok ds w1) as [v Hv].
  destruct (alternative_method env ds w1) as [[v' | e'] w2]; simpl in Hv;
    [reflexivity | discriminate].
Qed.

Lemma getAvailableScreens_placeholder_eq w :
  os_platform env = "win32" \/ os_platform env = "linux" ->
  getAvailableScreens env w = (Ok primary_screen, w).
Proof.
  intros [Hp | Hp]; unfold getAvailableScreens, getAvailableScreens_try, try_catch;
    rewrite Hp; reflexivity.
Qed.

Lemma getAvailableScreens_unsupported_eq w :
  supported_platform (os_platform env) = false ->
  getAvailableScreens env w =
  (Ok main_display,
   record_event
     (ConsoleError "Error listing screens:" ("Unsupported platform: " +:+ os_platform env)) w).
Proof.
  unfold supported_platform. intros H.
  apply orb_false_elim in H as [H Hl]. apply orb_false_elim in H as [Hd Hw].
  unfold getAvailableScreens, getAvailableScreens_try, try_catch.
  rewrite Hd, Hw, Hl. reflexivity.
Qed.

Lemma platform_cases :
  os_platform env = "darwin" \/
  (os_platform env = "win32" \/ os_platform env = "linux") \/
  supported_platform (os_platform env) = false.
Proof.
  unfold supported_platform.
  destruct (String.eqb_spec (os_platform env) "darwin"); [left; assumption |].
  destruct (String.eqb_spec (os_platform env) "win32"); [right; left; left; assumption |].
  destruct (String.eqb_spec (os_platform env) "linux"); [right; left; right; assumption |].
  right; right; reflexivity.
Qed.

Lemma getAvailableScreens_ok w :
  exists v, fst (getAvailableScreens env w) = Ok v.
Proof.
  destruct platform_cases as [Hp | [Hp | Hp]].
  - rewrite getAvailableScreens_darwin_eq by exact Hp.
    destruct (fst (run_command env introspection_cmd None w)) as [stdout | e];
      [| eexists; reflexivity].
    destruct (length (displayData stdout) =? 0)%nat; [eexists; reflexivity |].
    destruct (length (displaySections stdout) =? 0)%nat; [eexists; reflexivity |].
    apply alternative_method_ok.
  - rewrite getAvailableScreens_placeholder_eq by exact Hp. eexists; reflexivity.
  - rewrite getAvailableScreens_unsupported_eq by exact Hp. eexists; reflexivity.
Qed.

Lemma alternative_method_extends displays :
  steps (extends is_introspection) (alternative_method env displays).
Proof.
  unfold alternative_method.
  destruct (length displays <=? 1)%nat;
    [| apply steps_ret, extends_refl].
  apply steps_try_catch; [apply extends_trans | |].
  - apply steps_bind; [apply extends_trans | |].
    + apply execAsync_extends. reflexivity.
    + intros info. destruct (1 <? length (resolution_lines info))%nat;
        apply steps_ret, extends_refl.
  - intros e. apply steps_bind; [apply extends_trans | |].
    + apply console_error_extends. reflexivity.
    + intros _. apply steps_ret, extends_refl.
Qed.

Lemma getAvailableScreens_extends :
  steps (extends is_introspection) (getAvailableScreens env).
Proof.
  unfold getAvailableScreens.
  apply steps_try_catch; [apply extends_trans | |].
  - unfold getAvailableScreens_try.
    destruct (String.eqb (os_platform env) "darwin").
    + apply steps_bind; [apply extends_trans | |].
      * apply execAsync_extends. reflexivity.
      * intros stdout.
        destruct (length (displayData stdout) =? 0)%nat;
          [apply steps_ret, extends_refl |].
        destruct (length (displaySections stdout) =? 0)%nat;
          [apply steps_ret, extends_refl |].
        apply alternative_method_extends.
    + destruct (String.eqb (os_platform env) "win32");
        [apply steps_ret, extends_refl |].
      destruct (String.eqb (os_platform env) "linux");
        [apply steps_ret, extends_refl | apply steps_throw, extends_refl].
  - intros e. apply steps_bind; [apply extends_trans | |].
    + apply console_error_extends. reflexivity.
    + intros _. apply steps_ret, extends_refl.
Qed.

Lemma getAvailableScreens_clock : steps same_clock (getAvailableScreens env).
Proof.
  intros w. destruct platform_cases as [Hp | [Hp | Hp]].
  - rewrite getAvailableScreens_darwin_eq by exact Hp.
    destruct (fst (run_command env introspection_cmd None w)) as [stdout | e];
      [| reflexivity].
    destruct (length (displayData stdout) =? 0)%nat; [reflexivity |].
    destruct (length (displaySections stdout) =? 0)%nat; [reflexivity |].
    rewrite alternative_method_eq.
    destruct (length _ <=? 1)%nat; [| reflexivity].
    destruct (fst (run_command env rescan_cmd None _)); reflexivity.
  - rewrite getAvailableScreens_placeholder_eq by exact Hp. reflexivity.
  - rewrite getAvailableScreens_unsupported_eq by exact Hp. reflexivity.
Qed.

End Enumerator.

(** ** The capture engine, step by step *)

Section Capture.

Variable env : Env.

Lemma select_command_darwin_eq sid path w screens w1 :
  os_platform env = "darwin" ->
  getAvailableScreens env w = (Ok screens, w1) ->
  select_command env sid path w =
  if existsb (fun screen => (id screen =? sid)%Z) screens || (sid =? 1)%Z
  then (Ok (darwin_display_cmd sid path), w1)
  else (Ok (darwin_main_cmd path),
        record_event
          (ConsoleWarn ("Display ID " +:+ Js.string_of_Z sid
                          +:+ " not found, defaulting to main display")) w1).
Proof.
  intros Hp Hg. unfold select_command, bind.
  rewrite Hp, String.eqb_refl, Hg.
  destruct (existsb _ screens || (sid =? 1)%Z); reflexivity.
Qed.

Lemma select_command_placeholder_eq sid path w :
  select_command env sid path w =
  if String.eqb (os_platform env) "darwin" then select_command env sid path w
  else if String.eqb (os_platform env) "win32" then (Ok (win32_cmd path), w)
  else if String.eqb (os_platform env) "linux" then (Ok (linux_cmd path), w)
  else (Err ("Unsupported platform: " +:+ os_platform env), w).
Proof.
  unfold select_command.
  destruct (String.eqb (os_platform env) "darwin"); [reflexivity |].
  destruct (String.eqb (os_platform env) "win32"); [reflexivity |].
  destruct (String.eqb (os_platform env) "linux"); reflexivity.
Qed.

Lemma select_command_unsupported_eq sid path w :
  supported_platform (os_platform env) = false ->
  select_command env sid path w =
  (Err ("Unsupported platform: " +:+ os_platform env), w).
Proof.
  unfold supported_platform. intros H.
  apply orb_false_elim in H as [H Hl]. apply orb_false_elim in H as [Hd Hw].
  rewrite select_command_placeholder_eq, Hd, Hw, Hl. reflexivity.
Qed.

Lemma select_command_supported sid path w :
  supported_platform (os_platform env) = true ->
  exists cmd, fst (select_command env sid path w) = Ok cmd.
Proof.
  intros Hs. destruct (platform_cases env) as [Hp | [Hp | Hp]].
  - destruct (getAvailableScreens_ok env w) as [screens Hv].
    destruct (getAvailableScreens env w) as [r0 w1] eqn:Hg. simpl in Hv. subst r0.
    rewrite (select_command_darwin_eq sid path w screens w1 Hp Hg).
    destruct (existsb _ screens || (sid =? 1)%Z); eexists; reflexivity.
  - rewrite select_command_placeholder_eq.
    destruct Hp as [Hp | Hp]; rewrite Hp; eexists; reflexivity.
  - congruence.
Qed.

Lemma select_command_clock sid path : steps same_clock (select_command env sid path).
Proof.
  intros w. destruct (String.eqb (os_platform env) "darwin") eqn:Hd.
  - apply String.eqb_eq in Hd.
    pose proof (getAvailableScreens_clock env w) as Hc.
    destruct (getAvailableScreens_ok env w) as [screens Hv].
    destruct (getAvailableScreens env w) as [r0 w1] eqn:Hg. simpl in Hv, Hc. subst r0.
    rewrite (select_command_darwin_eq sid path w screens w1 Hd Hg).
    destruct (existsb _ screens || (sid =? 1)%Z); exact Hc.
  - rewrite select_command_placeholder_eq, Hd.
    destruct (String.eqb (os_platform env) "win32"); [reflexivity |].
    destruct (String.eqb (os_platform env) "linux"); reflexivity.
Qed.

(** The enumeration, then at most one warning. *)
Lemma select_command_extends sid path :
  steps (extends (fun e => is_introspection e || is_warning e))
    (select_command env sid path).
Proof.
  unfold select_command.
  destruct (String.eqb (os_platform env) "darwin").
  - apply steps_bind; [apply extends_trans | |].
    + intros w. eapply extends_weaken; [| apply getAvailableScreens_extends].
      intros e He. rewrite He. reflexivity.
    + intros screens. destruct (existsb _ screens || (sid =? 1)%Z).
      * apply steps_ret, extends_refl.
      * apply steps_bind; [apply extends_trans | |].
        -- apply console_warn_extends. reflexivity.
        -- intros _. apply steps_ret, extends_refl.
  - destruct (String.eqb (os_platform env) "win32");
      [apply steps_ret, extends_refl |].
    destruct (String.eqb (os_platform env) "linux");
      [apply steps_ret, extends_refl | apply steps_throw, extends_refl].
Qed.

Lemma takeScreenshot_try_eq url options w :
  takeScreenshot_try env url options w =
  match select_command env (resolve_screenId options) (screenshotPath_at env w) (tick w) with
  | (Ok cmd, w2) =>
      match fst (run_command env cmd (Some (timeout_or_zero options)) w2) with
      | Ok _ =>
          encode_and_clean env (resolve_screenId options) (os_tmpdir env)
            (screenshotPath_at env w)
            (after_exec env cmd (Some (timeout_or_zero options)) w2)
      | Err e => (Err e, after_exec env cmd (Some (timeout_or_zero options)) w2)
      end
  | (Err e, w2) => (Err e, w2)
  end.
Proof.
  unfold takeScreenshot_try, bind, Date_now. fold (tick w). fold (screenshotPath_at env w).
  destruct (select_command _ _ _ (tick w)) as [[cmd | e] w2]; [| reflexivity].
  rewrite execAsync_eq.
  destruct (fst (run_command env cmd _ w2)); reflexivity.
Qed.

Lemma takeScreenshot_eq url options w :
  takeScreenshot env url options w =
  match takeScreenshot_try env url options w with
  | (Ok v, w') => (Ok v, w')
  | (Err e, w') =>
      (Err ("Failed to capture screenshot: " +:+ e),
       record_event (ConsoleError "Error taking screenshot:" e) w')
  end.
Proof.
  unfold takeScreenshot, try_catch.
  destruct (takeScreenshot_try env url options w) as [[v | e] w']; reflexivity.
Qed.

Lemma encode_and_clean_extends sid tmp shot :
  steps (extends (cleanup_event sid)) (encode_and_clean env sid tmp shot).
Proof.
  unfold encode_and_clean. destruct (sid =? 2)%Z eqn:Hsid.
  - apply steps_bind; [apply extends_trans | apply Date_now_extends |].
    intros now.
    apply steps_bind; [apply extends_trans | | intros _; steps_extends].
    apply sharp_extends. simpl. rewrite Hsid. reflexivity.
  - steps_extends.
Qed.

(** A successful end: the capture file was there and is gone; the value
    encodes the resized image for screen 2 and the raw file otherwise. *)
Lemma encode_and_clean_ok sid tmp shot w v w' :
  encode_and_clean env sid tmp shot w = (Ok v, w') ->
  exists raw,
    files w !! shot = Some raw /\ files w' !! shot = None /\
    if (sid =? 2)%Z then
      exists image,
        sharp_image env raw 819 1456 resize_options = Ok image /\
        v = Base64.encode image /\
        files w' !!
          path_join env tmp
            ("screenshot-resized-" +:+ Js.string_of_Z (date_now env (clock_reads w))
               +:+ ".png") = None
    else v = Base64.encode raw.
Proof.
  unfold encode_and_clean.
  destruct (sid =? 2)%Z.
  - unfold bind, Date_now, sharp_resize_toFile, unlink, readFile, ret,
      record_event, set_files. simpl.
    set (resized := path_join env tmp _).
    destruct (files w !! shot) as [raw |] eqn:Hraw; [| discriminate].
    destruct (sharp_image env raw 819 1456 resize_options) as [image | e] eqn:Himg;
      [| discriminate].
    simpl.
    destruct (<[resized:=image]> (files w) !! shot) eqn:Hshot; [| discriminate].
    simpl.
    destruct (delete shot (<[resized:=image]> (files w)) !! resized) as [data |] eqn:Hres;
      [| discriminate].
    simpl. rewrite Hres. simpl. intros H. inversion H; subst; clear H. simpl.
    exists raw. split; [reflexivity |].
    assert (Hne : shot <> resized).
    { intros ->. rewrite lookup_delete_eq in Hres. discriminate. }
    rewrite lookup_delete_ne, lookup_insert_eq in Hres by exact Hne.
    inversion Hres; subst; clear Hres.
    split.
    + rewrite lookup_delete_ne by congruence. apply lookup_delete_eq.
    + exists data. split; [exact Himg |]. split; [reflexivity |]. apply lookup_delete_eq.
  - unfold bind, unlink, readFile, ret, record_event, set_files. simpl.
    destruct (files w !! shot) as [raw |] eqn:Hraw; [| discriminate].
    simpl. rewrite Hraw. intros H. inversion H; subst; clear H. simpl.
    exists raw. repeat split. apply lookup_delete_eq.
Qed.

Lemma sharp_trace i wd ht o out w :
  trace (snd (sharp_resize_toFile env i wd ht o out w)) =
  (trace w ++ [SharpResize i wd ht o out])%list.
Proof.
  unfold sharp_resize_toFile. destruct (files w !! i); [| reflexivity].
  destruct (sharp_image env l wd ht o); reflexivity.
Qed.

(** For screen 2 the first thing done after the capture is the resize. *)
Lemma encode_and_clean_resizes tmp shot w :
  exists rest,
    trace (snd (encode_and_clean env 2 tmp shot w)) =
    (trace w ++
       SharpResize shot 819 1456 resize_options
         (path_join env tmp
            ("screenshot-resized-" +:+ Js.string_of_Z (date_now env (clock_reads w))
               +:+ ".png")) :: rest)%list.
Proof.
  unfold encode_and_clean. change (2 =? 2)%Z with true. cbv iota.
  unfold bind at 1. unfold Date_now at 1. cbv beta iota.
  set (resized := path_join env tmp _).
  set (w1 := {| files := files w; trace := trace w; clock_reads := S (clock_reads w) |}).
  unfold bind at 1.
  pose proof (sharp_trace shot 819 1456 resize_options resized w1) as Hs.
  destruct (sharp_resize_toFile env shot 819 1456 resize_options resized w1)
    as [[u | e] w2]; simpl in Hs.
  - match goal with |- context [snd (?m w2)] =>
      assert (Hk : extends (fun _ => true) w2 (snd (m w2)))
    end.
    { generalize w2. change (steps (extends (fun _ : Event => true))
        (unlink shot ;;; screenshotData <- readFile resized ;;
         unlink resized ;;; ret (Base64.encode screenshotData))).
      steps_extends. }
    destruct Hk as [evs [Hk _]]. exists evs. rewrite Hk, Hs.
    rewrite <- app_assoc. reflexivity.
  - exists []. exact Hs.
Qed.

(** Every event of a capture is one that its options allow. *)
Lemma takeScreenshot_extends url options :
  steps (extends (capture_event options)) (takeScreenshot env url options).
Proof.
  unfold takeScreenshot, takeScreenshot_try.
  apply steps_try_catch; [apply extends_trans | | intros e; steps_extends].
  apply steps_bind; [apply extends_trans | apply Date_now_extends | intros now].
  apply steps_bind; [apply extends_trans | | intros cmd].
  { intros w. eapply extends_weaken; [| apply select_command_extends].
    intros [c [t |] | | | | |] He; simpl in *; try reflexivity; discriminate. }
  apply steps_bind; [apply extends_trans | | intros _].
  { apply execAsync_extends. simpl. apply Z.eqb_refl. }
  intros w. eapply extends_weaken; [| apply encode_and_clean_extends].
  intros [| | | | |] He; simpl in *; try reflexivity; try discriminate; exact He.
Qed.

Lemma new_events_record e w : new_events w (record_event e w) = [e].
Proof. unfold new_events. simpl. apply drop_app_length. Qed.

End Capture.

(** * The claims *)

(** ** C1: an unsupported platform *)

(** C1 (as amended).  On a platform tag that is none of [darwin],
    [win32], [linux], [takeScreenshot] fails with the message
    [Failed to capture screenshot: Unsupported platform: <tag>], while
    [getAvailableScreens] catches its own unsupported-platform error and
    returns the single Main Display descriptor.  In both calls the only
    effect is the error log: no child process is started and no file is
    touched. *)
Theorem unsupported_platform_capture_fails_listing_degrades
    (env : Env) (url : string) (options : Options) (w : World) :
  supported_platform (os_platform env) = false ->
  let reason := "Unsupported platform: " +:+ os_platform env in
  takeScreenshot env url options w =
    (Err ("Failed to capture screenshot: " +:+ reason),
     record_event (ConsoleError "Error taking screenshot:" reason) (tick w)) /\
  getAvailableScreens env w =
    (Ok main_display, record_event (ConsoleError "Error listing screens:" reason) w) /\
  new_events w (snd (takeScreenshot env url options w)) =
    [ConsoleError "Error taking screenshot:" reason] /\
  new_events w (snd (getAvailableScreens env w)) =
    [ConsoleError "Error listing screens:" reason] /\
  files (snd (takeScreenshot env url options w)) = files w /\
  files (snd (getAvailableScreens env w)) = files w.
Proof.
  intros Hp reason.
  assert (Ht : takeScreenshot env url options w =
    (Err ("Failed to capture screenshot: " +:+ reason),
     record_event (ConsoleError "Error taking screenshot:" reason) (tick w))).
  { rewrite takeScreenshot_eq, takeScreenshot_try_eq.
    rewrite select_command_unsupported_eq by exact Hp. reflexivity. }
  pose proof (getAvailableScreens_unsupported_eq env w Hp) as Hg.
  fold reason in Hg. rewrite Ht, Hg. simpl.
  repeat split.
  - apply (new_events_record _ (tick w)).
  - apply new_events_record.
Qed.

Lemma unsupported_platform_witness :
  supported_platform (os_platform Scenario.freebsd) = false /\
  fst (takeScreenshot Scenario.freebsd EmptyString
         (Scenario.options_for (Some 1) None) Scenario.empty_world) =
    Err "Failed to capture screenshot: Unsupported platform: freebsd".
Proof.
  split; [reflexivity |].
  destruct (unsupported_platform_capture_fails_listing_degrades Scenario.freebsd
              EmptyString (Scenario.options_for (Some 1) None) Scenario.empty_world
              eq_refl) as [H _].
  rewrite H. reflexivity.
Defined.

(** C1 as stated fails for the enumeration: on the platform tag
    [freebsd] it does not fail, it returns the Main Display descriptor. *)
Lemma listing_on_freebsd_returns_main_display :
  supported_platform (os_platform Scenario.freebsd) = false /\
  fst (getAvailableScreens Scenario.freebsd Scenario.empty_world) =
    Ok [ {| id := 1; description := "Main Display" |} ] /\
  trace (snd (getAvailableScreens Scenario.freebsd Scenario.empty_world)) =
    [ConsoleError "Error listing screens:" "Unsupported platform: freebsd"].
Proof. repeat split. Qed.

(** ** C2: temporary files *)

(** C2 (as amended).  When [takeScreenshot] returns successfully, the
    capture file is not on disk any more, and for screen 2 neither is
    the resized file.  When it fails, the handler logs and throws again
    without deleting anything: the files are those that the failing step
    left; so when the image library rejects the capture of screen 2, the
    capture file stays on disk. *)
Theorem successful_capture_removes_temp_files
    (env : Env) (url : string) (options : Options) (w : World) :
  (forall v w', takeScreenshot env url options w = (Ok v, w') ->
     files w' !! screenshotPath_at env w = None /\
     (resolve_screenId options = 2 -> files w' !! resizedPath_at env w = None)) /\
  (forall e w1, takeScreenshot_try env url options w = (Err e, w1) ->
     exists w', takeScreenshot env url options w =
                  (Err ("Failed to capture screenshot: " +:+ e), w') /\
                files w' = files w1) /\
  (forall cmd w2 out fs raw e,
     select_command env (resolve_screenId options) (screenshotPath_at env w) (tick w)
       = (Ok cmd, w2) ->
     run_command env cmd (Some (timeout_or_zero options)) w2 = (Ok out, fs) ->
     fs !! screenshotPath_at env w = Some raw ->
     resolve_screenId options = 2 ->
     sharp_image env raw 819 1456 resize_options = Err e ->
     fst (takeScreenshot env url options w) = Err ("Failed to capture screenshot: " +:+ e) /\
     files (snd (takeScreenshot env url options w)) !! screenshotPath_at env w = Some raw).
Proof.
  split; [| split].
  - intros v w' H. rewrite takeScreenshot_eq, takeScreenshot_try_eq in H.
    pose proof (select_command_clock env (resolve_screenId options)
                  (screenshotPath_at env w) (tick w)) as Hc.
    destruct (select_command _ _ _ (tick w)) as [[cmd | e] w2]; [| discriminate].
    cbn [snd] in Hc.
    destruct (fst (run_command env cmd _ w2)); [| discriminate].
    set (w3 := after_exec env cmd _ w2) in H.
    destruct (encode_and_clean env _ _ _ w3) as [[v0 | e] w4] eqn:He; [| discriminate].
    inversion H; subst; clear H.
    apply encode_and_clean_ok in He as [raw [_ [Hgone Hrest]]].
    split; [exact Hgone |].
    intros Hsid. rewrite Hsid in Hrest. simpl in Hrest.
    destruct Hrest as [image [_ [_ Hres]]].
    change (clock_reads w3) with (clock_reads w2) in Hres.
    unfold same_clock in Hc. rewrite Hc in Hres. exact Hres.
  - intros e w1 H. rewrite takeScreenshot_eq, H. eexists. split; reflexivity.
  - intros cmd w2 out fs raw e Hsel Hrun Hraw Hsid Himg.
    rewrite takeScreenshot_eq, takeScreenshot_try_eq, Hsel, Hrun. simpl fst.
    unfold after_exec. rewrite Hrun, Hsid. simpl snd.
    unfold encode_and_clean. change (2 =? 2)%Z with true. cbv iota.
    unfold bind, Date_now, sharp_resize_toFile. simpl.
    rewrite Hraw, Himg. simpl. split; [reflexivity | exact Hraw].
Qed.

Lemma successful_capture_witness :
  fst (takeScreenshot Scenario.linux EmptyString
         (Scenario.options_for (Some 2) None) Scenario.empty_world) = Ok "iVBORwA=" /\
  files (snd (takeScreenshot Scenario.linux EmptyString
                (Scenario.options_for (Some 2) None) Scenario.empty_world))
    !! screenshotPath_at Scenario.linux Scenario.empty_world = None /\
  files (snd (takeScreenshot Scenario.linux EmptyString
                (Scenario.options_for (Some 2) None) Scenario.empty_world))
    !! resizedPath_at Scenario.linux Scenario.empty_world = None.
Proof.
  split; [reflexivity |].
  destruct (successful_capture_removes_temp_files Scenario.linux EmptyString
              (Scenario.options_for (Some 2) None) Scenario.empty_world) as [H _].
  destruct (H "iVBORwA="
              (snd (takeScreenshot Scenario.linux EmptyString
                      (Scenario.options_for (Some 2) None) Scenario.empty_world))
              eq_refl) as [H1 H2].
  split; [exact H1 | exact (H2 eq_refl)].
Defined.

(** C2 as stated fails: on a Linux-class host whose capture tool writes
    the capture file and whose image library then rejects it, the call
    for screen 2 fails and the capture file, which was not there before
    the call, is still on disk when the call returns. *)
Lemma failed_resize_leaves_capture_file :
  fst (takeScreenshot Scenario.linux_bad_image EmptyString
         (Scenario.options_for (Some 2) None) Scenario.empty_world) =
    Err "Failed to capture screenshot: Input buffer contains unsupported image format" /\
  screenshotPath_at Scenario.linux_bad_image Scenario.empty_world = Scenario.shot /\
  files Scenario.empty_world !! Scenario.shot = None /\
  files (snd (takeScreenshot Scenario.linux_bad_image EmptyString
                (Scenario.options_for (Some 2) None) Scenario.empty_world))
    !! Scenario.shot = Some Scenario.png.
Proof. repeat split. Qed.

(** ** C3: the scan of a section *)

Lemma scan_line_carries l f line :
  carries l line = true -> field l (scan_line f line) = line_value l line.
Proof.
  unfold carries, line_label, scan_line, line_value.
  destruct (Js.includes line "Display Type:" || Js.includes line "Type:").
  - destruct l; simpl; intros H; try discriminate; reflexivity.
  - destruct (Js.includes line "Resolution:").
    + destruct l; simpl; intros H; try discriminate; reflexivity.
    + destruct (Js.includes line "Name:").
      * destruct l; simpl; intros H; try discriminate; reflexivity.
      * discriminate.
Qed.

Lemma scan_line_other l f line :
  carries l line = false -> field l (scan_line f line) = field l f.
Proof.
  unfold carries, line_label, scan_line.
  destruct (Js.includes line "Display Type:" || Js.includes line "Type:").
  - destruct l; simpl; intros H; try discriminate; reflexivity.
  - destruct (Js.includes line "Resolution:").
    + destruct l; simpl; intros H; try discriminate; reflexivity.
    + destruct (Js.includes line "Name:").
      * destruct l; simpl; intros H; try discriminate; reflexivity.
      * reflexivity.
Qed.

Lemma scan_rest_keeps l rest : forall f,
  forallb (fun line => negb (carries l line)) rest = true ->
  field l (fold_left scan_line rest f) = field l f.
Proof.
  induction rest as [| line rest IH]; intros f H; [reflexivity |].
  simpl in H. apply andb_prop in H as [Hline Hrest].
  simpl. rewrite IH by exact Hrest.
  apply scan_line_other. apply negb_true_iff, Hline.
Qed.

(** C3 (as amended).  A line counts for the first of the labels type,
    resolution, name that it contains (a label is matched anywhere in
    the line).  For each of the three fields the last line that counts
    for it wins: whatever comes before, the field holds the value of the
    latest such line; a field for which no line counts stays empty. *)
Theorem last_labelled_line_wins
    (l : Label) (before : list string) (line : string) (after : list string) :
  carries l line = true ->
  forallb (fun x => negb (carries l x)) after = true ->
  field l (scan_lines (before ++ line :: after)) = line_value l line /\
  field l (scan_lines after) = EmptyString.
Proof.
  intros Hline Hafter. unfold scan_lines. split.
  - rewrite fold_left_app. simpl.
    rewrite scan_rest_keeps by exact Hafter.
    apply scan_line_carries, Hline.
  - rewrite scan_rest_keeps by exact Hafter. destruct l; reflexivity.
Qed.

Lemma last_labelled_line_witness :
  carries DisplayType "Display Type: OLED" = true /\
  forallb (fun x => negb (carries DisplayType x)) ["Resolution: 1920 x 1080"] = true /\
  field DisplayType
    (scan_lines (["Display Type: LCD"] ++
                 "Display Type: OLED" :: ["Resolution: 1920 x 1080"])) = "OLED".
Proof.
  split; [reflexivity |]. split; [reflexivity |].
  destruct (last_labelled_line_wins DisplayType ["Display Type: LCD"]
              "Display Type: OLED" ["Resolution: 1920 x 1080"] eq_refl eq_refl)
    as [H _].
  rewrite H. reflexivity.
Defined.

(** C3 as stated fails: of two lines that carry the type label, the
    later one gives the field its value, and the descriptor of the
    section shows it. *)
Lemma later_type_line_overrides_earlier :
  carries DisplayType "Display Type: LCD" = true /\
  carries DisplayType "Display Type: OLED" = true /\
  line_value DisplayType "Display Type: LCD" = "LCD" /\
  displayType (scan_lines ["Display Type: LCD"; "Display Type: OLED"]) = "OLED" /\
  section_display 0 Scenario.two_types = {| id := 1; description := "OLED" |}.
Proof. repeat split. Qed.

(** ** C6: the enumerator does not throw *)

(** What can fail inside the [try] of [getAvailableScreens]: the first
    introspection command, or the platform test. *)
Lemma getAvailableScreens_try_fails (env : Env) (w : World) e w1 :
  getAvailableScreens_try env w = (Err e, w1) ->
  (os_platform env = "darwin" /\
   fst (run_command env introspection_cmd None w) = Err e) \/
  (supported_platform (os_platform env) = false /\
   e = "Unsupported platform: " +:+ os_platform env).
Proof.
  unfold getAvailableScreens_try, supported_platform.
  destruct (String.eqb_spec (os_platform env) "darwin") as [Hd | Hd].
  - unfold bind. fold introspection_cmd. rewrite execAsync_eq.
    destruct (fst (run_command env introspection_cmd None w)) as [stdout | e0].
    + destruct (length (displayData stdout) =? 0)%nat; [discriminate |].
      destruct (length (displaySections stdout) =? 0)%nat; [discriminate |].
      match goal with |- alternative_method env ?ds ?w0 = _ -> _ =>
        destruct (alternative_method_ok env ds w0) as [v Hv];
        destruct (alternative_method env ds w0) as [[v' | e'] w2]
      end; [discriminate | simpl in Hv; discriminate].
    + intros H. inversion H; subst. left. split; [exact Hd | reflexivity].
  - destruct (String.eqb (os_platform env) "win32"); [discriminate |].
    destruct (String.eqb (os_platform env) "linux"); [discriminate |].
    intros H. inversion H; subst. right. split; reflexivity.
Qed.

(** C6 (as amended).  [getAvailableScreens] never throws.  When the
    code inside its [try] throws (the first introspection command
    fails, or the platform is not supported), it logs the error and
    returns exactly the single Main Display descriptor.  A failure of
    the second command (the search for resolution lines) does not reach
    that handler: it is caught on its own, logged, and the list built
    from the sections is returned as it is. *)
Theorem enumeration_never_throws (env : Env) (w : World) :
  (exists v w', getAvailableScreens env w = (Ok v, w')) /\
  (forall e w1, getAvailableScreens_try env w = (Err e, w1) ->
     getAvailableScreens env w =
       (Ok main_display, record_event (ConsoleError "Error listing screens:" e) w1) /\
     ((os_platform env = "darwin" /\
       fst (run_command env introspection_cmd None w) = Err e) \/
      (supported_platform (os_platform env) = false /\
       e = "Unsupported platform: " +:+ os_platform env))) /\
  (forall e, os_platform env = "darwin" ->
     fst (run_command env introspection_cmd None w) = Err e ->
     fst (getAvailableScreens env w) = Ok main_display) /\
  (forall displays e, (length displays <= 1)%nat ->
     fst (run_command env rescan_cmd None w) = Err e ->
     alternative_method env displays w =
       (Ok displays,
        record_event (ConsoleError "Error getting alternative screen info:" e)
          (after_exec env rescan_cmd None w))).
Proof.
  repeat split.
  - destruct (getAvailableScreens_ok env w) as [v Hv].
    destruct (getAvailableScreens env w) as [r0 w'] eqn:Hg. simpl in Hv. subst r0.
    exists v, w'. reflexivity.
  - unfold getAvailableScreens, try_catch. rewrite H. reflexivity.
  - apply (getAvailableScreens_try_fails env w e w1 H).
  - intros e Hp He. rewrite getAvailableScreens_darwin_eq by exact Hp.
    rewrite He. reflexivity.
  - intros displays e Hlen He. rewrite alternative_method_eq, He.
    apply Nat.leb_le in Hlen. rewrite Hlen. reflexivity.
Qed.

Lemma enumeration_never_throws_witness :
  fst (run_command (Scenario.darwin Scenario.two_types (Err "Command failed"))
         rescan_cmd None Scenario.empty_world) = Err "Command failed" /\
  fst (alternative_method (Scenario.darwin Scenario.two_types (Err "Command failed"))
         [ {| id := 1; description := "OLED" |} ] Scenario.empty_world) =
    Ok [ {| id := 1; description := "OLED" |} ].
Proof.
  split; [reflexivity |].
  destruct (enumeration_never_throws
              (Scenario.darwin Scenario.two_types (Err "Command failed"))
              Scenario.empty_world) as [_ [_ [_ H]]].
  rewrite (H [ {| id := 1; description := "OLED" |} ] "Command failed"
             (le_n 1) eq_refl).
  reflexivity.
Defined.

(** C6 as stated fails: on a macOS-class host whose profile has one
    display section and whose second command fails (as [grep] does when
    it finds no line), a failure is raised during the introspection and
    the result is the descriptor of the section, not the synthetic
    Main Display list. *)
Lemma failed_rescan_keeps_parsed_list :
  fst (run_command (Scenario.darwin Scenario.two_types (Err "Command failed"))
         rescan_cmd None
         (after_exec (Scenario.darwin Scenario.two_types (Err "Command failed"))
            introspection_cmd None Scenario.empty_world)) = Err "Command failed" /\
  fst (getAvailableScreens (Scenario.darwin Scenario.two_types (Err "Command failed"))
         Scenario.empty_world) = Ok [ {| id := 1; description := "OLED" |} ] /\
  trace (snd (getAvailableScreens
                (Scenario.darwin Scenario.two_types (Err "Command failed"))
                Scenario.empty_world)) =
    [ExecCmd introspection_cmd None; ExecCmd rescan_cmd None;
     ConsoleError "Error getting alternative screen info:" "Command failed"].
Proof. repeat split. Qed.

(** ** C7: the second look at the displays *)

Lemma resolution_display_lookup (lines : list string) (i : nat) (line : string) :
  lines !! i = Some line ->
  imap resolution_display lines !! i =
  Some {| id := Z.of_nat i + 1;
          description :=
            if (i =? 0)%nat
            then "Main Display (" +:+ line_value Resolution line +:+ ")"
            else "External Display " +:+ Js.string_of_Z (Z.of_nat i)
                   +:+ " (" +:+ line_value Resolution line +:+ ")" |}.
Proof. intros H. rewrite list_lookup_imap, H. reflexivity. Qed.

(** C7 (as amended).  On Platform A, once the first command has
    answered a text with some content: when the structured parse finds
    no section, the Main Display descriptor is returned at once and the
    output is not scanned again; when it finds exactly one section, the
    resolution command is run, and the list is rebuilt from the
    resolution lines if and only if the command succeeds with more than
    one such line; when it finds two sections or more, nothing more is
    run.  The rebuilt list has one descriptor per resolution line, in
    order, with ids 1, 2, ..., the first labelled
    [Main Display (resolution)] and the one at index i > 0 labelled
    [External Display i (resolution)]. *)
Theorem rescan_only_after_single_section (env : Env) (w : World) (stdout : string) :
  os_platform env = "darwin" ->
  fst (run_command env introspection_cmd None w) = Ok stdout ->
  length (displayData stdout) <> 0%nat ->
  let w1 := after_exec env introspection_cmd None w in
  let parsed := imap section_display (displaySections stdout) in
  (length (displaySections stdout) = 0%nat ->
     getAvailableScreens env w = (Ok main_display, w1)) /\
  (length (displaySections stdout) = 1%nat ->
     (forall info, fst (run_command env rescan_cmd None w1) = Ok info ->
        getAvailableScreens env w =
          (Ok (if (1 <? length (resolution_lines info))%nat
               then imap resolution_display (resolution_lines info)
               else parsed),
           after_exec env rescan_cmd None w1)) /\
     (forall e, fst (run_command env rescan_cmd None w1) = Err e ->
        getAvailableScreens env w =
          (Ok parsed,
           record_event (ConsoleError "Error getting alternative screen info:" e)
             (after_exec env rescan_cmd None w1)))) /\
  ((1 < length (displaySections stdout))%nat ->
     getAvailableScreens env w = (Ok parsed, w1)) /\
  (forall (lines : list string),
     length (imap resolution_display lines) = length lines /\
     forall i line, lines !! i = Some line ->
       imap resolution_display lines !! i =
       Some {| id := Z.of_nat i + 1;
               description :=
                 if (i =? 0)%nat
                 then "Main Display (" +:+ line_value Resolution line +:+ ")"
                 else "External Display " +:+ Js.string_of_Z (Z.of_nat i)
                        +:+ " (" +:+ line_value Resolution line +:+ ")" |}).
Proof.
  intros Hp Hout Hdata w1 parsed.
  pose proof (getAvailableScreens_darwin_eq env w Hp) as Hg.
  rewrite Hout in Hg. fold w1 in Hg.
  apply Nat.eqb_neq in Hdata. rewrite Hdata in Hg.
  split; [| split; [| split]].
  - intros H0. rewrite H0 in Hg. exact Hg.
  - intros H1. rewrite H1 in Hg. simpl in Hg. fold parsed in Hg.
    rewrite alternative_method_eq in Hg.
    unfold parsed in Hg at 1. rewrite length_imap, H1 in Hg. simpl in Hg.
    split.
    + intros info Hinfo. rewrite Hinfo in Hg. exact Hg.
    + intros e He. rewrite He in Hg. exact Hg.
  - intros Hmany.
    destruct (length (displaySections stdout)) as [| [| n]] eqn:Hlen; [lia | lia |].
    simpl in Hg. fold parsed in Hg. rewrite alternative_method_eq in Hg.
    unfold parsed in Hg at 1. rewrite length_imap, Hlen in Hg. exact Hg.
  - intros lines. split; [apply length_imap |].
    intros i line. apply resolution_display_lookup.
Qed.

Lemma rescan_witness :
  os_platform (Scenario.darwin Scenario.two_types (Ok Scenario.grep_two_resolutions))
    = "darwin" /\
  length (displayData Scenario.two_types) <> 0%nat /\
  length (displaySections Scenario.two_types) = 1%nat /\
  fst (getAvailableScreens
         (Scenario.darwin Scenario.two_types (Ok Scenario.grep_two_resolutions))
         Scenario.empty_world) =
    Ok [ {| id := 1; description := "Main Display (1920 x 1080)" |};
         {| id := 2; description := "External Display 1 (1280 x 720)" |} ].
Proof.
  split; [reflexivity |]. split; [discriminate |]. split; [reflexivity |].
  destruct (rescan_only_after_single_section
              (Scenario.darwin Scenario.two_types (Ok Scenario.grep_two_resolutions))
              Scenario.empty_world Scenario.two_types eq_refl eq_refl
              (fun H : length (displayData Scenario.two_types) = 0%nat =>
                 O_S _ (eq_sym H)))
    as [_ [H _]].
  destruct (H eq_refl) as [H1 _].
  rewrite (H1 Scenario.grep_two_resolutions eq_refl). reflexivity.
Defined.

(** C7 as stated fails: a profile in which each resolution label opens
    its line gives no display section (the section marker takes the
    labels), so the parse yields at most one display; the resolution
    command would answer two lines; yet the Main Display descriptor is
    returned and the resolution command is never run. *)
Lemma no_section_means_no_rescan :
  length (displayData Scenario.two_resolutions) = 1%nat /\
  length (displaySections Scenario.two_resolutions) = 0%nat /\
  length (resolution_lines Scenario.grep_two_resolutions) = 2%nat /\
  fst (run_command
         (Scenario.darwin Scenario.two_resolutions (Ok Scenario.grep_two_resolutions))
         rescan_cmd None
         (after_exec
            (Scenario.darwin Scenario.two_resolutions (Ok Scenario.grep_two_resolutions))
            introspection_cmd None Scenario.empty_world)) =
    Ok Scenario.grep_two_resolutions /\
  getAvailableScreens
    (Scenario.darwin Scenario.two_resolutions (Ok Scenario.grep_two_resolutions))
    Scenario.empty_world =
    (Ok [ {| id := 1; description := "Main Display" |} ],
     {| files := ∅; trace := [ExecCmd introspection_cmd None]; clock_reads := 0 |}).
Proof. repeat split. Qed.

(** ** C10: the shape of the result *)

Lemma sequential_main_display : sequential main_display.
Proof. intros [| i] d H; simpl in H; [| discriminate]. inversion H. reflexivity. Qed.

Lemma sequential_sections (sections : list string) :
  sequential (imap section_display sections).
Proof.
  intros i d H. rewrite list_lookup_imap in H.
  destruct (sections !! i); simpl in H; [| discriminate]. inversion H. reflexivity.
Qed.

Lemma sequential_resolutions (lines : list string) :
  sequential (imap resolution_display lines).
Proof.
  intros i d H. rewrite list_lookup_imap in H.
  destruct (lines !! i); simpl in H; [| discriminate]. inversion H. reflexivity.
Qed.

Lemma sequential_nonneg v : sequential v -> Forall (fun d => 0 <= id d) v.
Proof.
  intros Hs. apply Forall_lookup_2. intros i d H. rewrite (Hs i d H). lia.
Qed.

Lemma alternative_method_shape (env : Env) displays w :
  displays <> [] -> sequential displays ->
  exists v, fst (alternative_method env displays w) = Ok v /\ v <> [] /\ sequential v.
Proof.
  intros Hne Hseq. rewrite alternative_method_eq.
  destruct (length displays <=? 1)%nat; [| exists displays; auto].
  destruct (fst (run_command env rescan_cmd None w)) as [info | e];
    [| exists displays; auto].
  destruct (1 <? length (resolution_lines info))%nat eqn:Hlen;
    [| exists displays; auto].
  eexists. split; [reflexivity |]. split; [| apply sequential_resolutions].
  apply Nat.ltb_lt in Hlen. intros Hnil.
  apply (f_equal length) in Hnil. rewrite length_imap in Hnil. simpl in Hnil. lia.
Qed.

(** C10.  On every platform and whatever happens, [getAvailableScreens]
    returns a list that is not empty and whose ids are not negative: on
    Platform A the ids are 1, 2, ... in list order, on Platforms B and C
    the only id is 0, and on any other platform (the fallback of the
    handler) the only id is 1. *)
Theorem enumeration_is_nonempty_with_natural_ids (env : Env) (w : World) :
  exists v w',
    getAvailableScreens env w = (Ok v, w') /\
    v <> [] /\
    Forall (fun d => 0 <= id d) v /\
    (os_platform env = "darwin" -> sequential v) /\
    (os_platform env = "win32" \/ os_platform env = "linux" -> map id v = [0]) /\
    (supported_platform (os_platform env) = false -> v = main_display) /\
    map id main_display = [1].
Proof.
  destruct (platform_cases env) as [Hp | [Hp | Hp]].
  - assert (H : exists v, fst (getAvailableScreens env w) = Ok v /\ v <> [] /\ sequential v).
    { rewrite getAvailableScreens_darwin_eq by exact Hp.
      destruct (fst (run_command env introspection_cmd None w)) as [stdout | e].
      - destruct (length (displayData stdout) =? 0)%nat.
        { exists main_display. repeat split; [discriminate | apply sequential_main_display]. }
        destruct (length (displaySections stdout) =? 0)%nat eqn:Hs.
        { exists main_display. repeat split; [discriminate | apply sequential_main_display]. }
        apply alternative_method_shape; [| apply sequential_sections].
        intros Hnil. apply (f_equal length) in Hnil. rewrite length_imap in Hnil.
        simpl in Hnil. rewrite Hnil in Hs. discriminate.
      - exists main_display. repeat split; [discriminate | apply sequential_main_display]. }
    destruct H as [v [Hv [Hne Hseq]]].
    destruct (getAvailableScreens env w) as [r0 w'] eqn:Hg. simpl in Hv. subst r0.
    exists v, w'.
    split; [reflexivity |]. split; [exact Hne |].
    split; [apply sequential_nonneg, Hseq |].
    split; [intros _; exact Hseq |].
    split; [intros [H | H]; rewrite Hp in H; discriminate |].
    split; [| reflexivity].
    unfold supported_platform. rewrite Hp. discriminate.
  - rewrite getAvailableScreens_placeholder_eq by exact Hp.
    exists primary_screen, w.
    split; [reflexivity |]. split; [discriminate |].
    split; [repeat constructor; simpl; lia |].
    split; [intros Hd; destruct Hp as [Hp | Hp]; rewrite Hp in Hd; discriminate |].
    split; [intros _; reflexivity |].
    split; [| reflexivity].
    unfold supported_platform. destruct Hp as [Hp | Hp]; rewrite Hp; discriminate.
  - rewrite getAvailableScreens_unsupported_eq by exact Hp.
    eexists _, _.
    split; [reflexivity |]. split; [discriminate |].
    split; [repeat constructor; simpl; lia |].
    split.
    { intros Hd. unfold supported_platform in Hp. rewrite Hd in Hp. discriminate. }
    split.
    { intros [H | H]; unfold supported_platform in Hp; rewrite H in Hp; discriminate. }
    split; [intros _; reflexivity | reflexivity].
Qed.

(** ** C4, C5, C8, C9: the capture *)

Section CaptureTrace.

Variable env : Env.

Lemma new_events_app w w' evs :
  trace w' = (trace w ++ evs)%list -> new_events w w' = evs.
Proof. intros H. unfold new_events. rewrite H. apply drop_app_length. Qed.

Lemma forallb_weaken {A} (P Q : A -> bool) (l : list A) :
  (forall x, P x = true -> Q x = true) -> forallb P l = true -> forallb Q l = true.
Proof.
  intros HPQ H. rewrite forallb_forall in *. intros x Hx. apply HPQ, H, Hx.
Qed.

(** Once the command is chosen it is run with the resolved timeout, and
    what follows is the resize, the read, the deletions and the log of
    the handler. *)
Lemma takeScreenshot_after_select url options w cmd w2 :
  select_command env (resolve_screenId options) (screenshotPath_at env w) (tick w)
    = (Ok cmd, w2) ->
  exists rest,
    trace (snd (takeScreenshot env url options w)) =
      (trace w2 ++ ExecCmd cmd (Some (timeout_or_zero options)) :: rest)%list /\
    forallb is_after_capture rest = true.
Proof.
  intros Hsel. rewrite takeScreenshot_eq, takeScreenshot_try_eq, Hsel.
  set (t := timeout_or_zero options).
  set (w3 := after_exec env cmd (Some t) w2).
  assert (H3 : trace w3 = (trace w2 ++ [ExecCmd cmd (Some t)])%list) by reflexivity.
  destruct (fst (run_command env cmd (Some t) w2)) as [out | e].
  - pose proof (encode_and_clean_extends env (resolve_screenId options) (os_tmpdir env)
                  (screenshotPath_at env w) w3) as [evs [Hevs Fevs]].
    assert (Fa : forallb is_after_capture evs = true).
    { revert Fevs. apply forallb_weaken.
      intros [| | | | |]; simpl; intros H; try reflexivity; discriminate. }
    destruct (encode_and_clean env _ _ _ w3) as [[v | e] w4];
      cbn [snd trace record_event] in Hevs |- *.
    + exists evs. rewrite Hevs, H3, <- app_assoc. split; [reflexivity | exact Fa].
    + exists (evs ++ [ConsoleError "Error taking screenshot:" e])%list.
      rewrite Hevs, H3, <- !app_assoc. split; [reflexivity |].
      rewrite forallb_app, Fa. reflexivity.
  - exists [ConsoleError "Error taking screenshot:" e].
    cbn [snd trace record_event].
    rewrite H3, <- app_assoc. split; reflexivity.
Qed.

(** Only [screenId] and [timeout] reach the body of [takeScreenshot]. *)
Lemma takeScreenshot_honours url1 url2 options1 options2 :
  resolve_screenId options1 = resolve_screenId options2 ->
  timeout_or_zero options1 = timeout_or_zero options2 ->
  takeScreenshot env url1 options1 = takeScreenshot env url2 options2.
Proof.
  intros Hs Ht. unfold takeScreenshot, takeScreenshot_try. rewrite Hs, Ht. reflexivity.
Qed.

End CaptureTrace.

(** C4.  A capture of screen 2 whose command succeeded goes through the
    resize: [fit: contain] on an opaque white background, to 819 by
    1456, from the capture file to the resized file; when the call
    succeeds, the value is the base64 text of the image that the resize
    produced from the captured bytes.  A capture of any other screen
    never resizes, whatever its outcome, and when it succeeds the value
    is the base64 text of the captured bytes themselves. *)
Theorem resize_exactly_for_screen_two
    (env : Env) (url : string) (options : Options) (w : World) :
  let sid := resolve_screenId options in
  let shot := screenshotPath_at env w in
  let t := timeout_or_zero options in
  let canvas :=
    {| fit := Contain;
       background := {| r := 255; g := 255; b := 255; alpha := 1 |} |} in
  (sid <> 2 ->
     forallb (fun e => negb (is_resize e))
       (new_events w (snd (takeScreenshot env url options w))) = true) /\
  (sid = 2 ->
     forall cmd w2 out fs,
       select_command env sid shot (tick w) = (Ok cmd, w2) ->
       run_command env cmd (Some t) w2 = (Ok out, fs) ->
       In (SharpResize shot 819 1456 canvas (resizedPath_at env w))
          (new_events w (snd (takeScreenshot env url options w)))) /\
  (forall v w',
     takeScreenshot env url options w = (Ok v, w') ->
     exists cmd w2 out fs raw,
       select_command env sid shot (tick w) = (Ok cmd, w2) /\
       run_command env cmd (Some t) w2 = (Ok out, fs) /\
       fs !! shot = Some raw /\
       if (sid =? 2)%Z
       then exists image,
              sharp_image env raw 819 1456 canvas = Ok image /\
              v = Base64.encode image
       else v = Base64.encode raw).
Proof.
  intros sid shot t canvas. split; [| split].
  - intros Hsid.
    destruct (extends_new_events _ _ _ (takeScreenshot_extends env url options w))
      as [_ F].
    revert F. apply forallb_weaken.
    intros [| | | | |]; simpl; try reflexivity.
    fold sid. apply Z.eqb_neq in Hsid. rewrite Hsid. discriminate.
  - intros Hsid cmd w2 out fs Hsel Hrun.
    pose proof (select_command_extends env sid shot (tick w)) as [evs0 [H0 _]].
    pose proof (select_command_clock env sid shot (tick w)) as Hc.
    rewrite Hsel in H0, Hc. simpl in H0. unfold same_clock in Hc. cbn [snd] in Hc.
    rewrite takeScreenshot_eq, takeScreenshot_try_eq.
    fold sid shot t. rewrite Hsel, Hrun. cbn [fst]. rewrite Hsid.
    set (w3 := after_exec env cmd (Some t) w2).
    destruct (encode_and_clean_resizes env (os_tmpdir env) shot w3) as [rest Hr].
    change (clock_reads w3) with (clock_reads w2) in Hr. rewrite Hc in Hr.
    change (clock_reads (tick w)) with (S (clock_reads w)) in Hr.
    fold (resizedPath_at env w) in Hr.
    assert (H3 : trace w3 = (trace w ++ evs0 ++ [ExecCmd cmd (Some t)])%list).
    { change (trace w3) with (trace w2 ++ [ExecCmd cmd (Some t)])%list.
      rewrite H0, <- app_assoc. reflexivity. }
    rewrite H3, <- !app_assoc in Hr.
    destruct (encode_and_clean env 2 (os_tmpdir env) shot w3) as [[v | e] w4];
      cbn [snd] in Hr |- *.
    + rewrite (new_events_app w w4 _ Hr).
      apply in_or_app. right. apply in_or_app. right. left. reflexivity.
    + erewrite new_events_app.
      2: { simpl. rewrite Hr, <- !app_assoc. reflexivity. }
      apply in_or_app. right. apply in_or_app. right. left. reflexivity.
  - intros v w' H. rewrite takeScreenshot_eq, takeScreenshot_try_eq in H.
    fold sid shot t in H.
    destruct (select_command env sid shot (tick w)) as [[cmd | e] w2] eqn:Hsel;
      [| discriminate].
    destruct (run_command env cmd (Some t) w2) as [res fs] eqn:Hrun.
    destruct res as [out | e]; cbn [fst] in H; [| discriminate].
    destruct (encode_and_clean env sid (os_tmpdir env) shot _) as [[v0 | e] w4] eqn:He;
      [| discriminate].
    inversion H; subst v0 w4; clear H.
    apply encode_and_clean_ok in He as [raw [Hraw [_ Hrest]]].
    exists cmd, w2, out, fs, raw.
    split; [reflexivity |]. split; [exact Hrun |].
    split; [unfold after_exec in Hraw; rewrite Hrun in Hraw; exact Hraw |].
    destruct (sid =? 2)%Z.
    + destruct Hrest as [image [Himg [Hv _]]]. exists image. split; assumption.
    + exact Hrest.
Qed.

Lemma resize_witness :
  resolve_screenId (Scenario.options_for (Some 2) None) = 2 /\
  In (SharpResize Scenario.shot 819 1456 resize_options
        "/tmp/screenshot-resized-1700000000001.png")
     (new_events Scenario.empty_world
        (snd (takeScreenshot Scenario.linux EmptyString
                (Scenario.options_for (Some 2) None) Scenario.empty_world))).
Proof.
  split; [reflexivity |].
  destruct (resize_exactly_for_screen_two Scenario.linux EmptyString
              (Scenario.options_for (Some 2) None) Scenario.empty_world)
    as [_ [H _]].
  exact (H eq_refl (linux_cmd Scenario.shot) (tick Scenario.empty_world)
           EmptyString _ eq_refl eq_refl).
Defined.

(** C5.  On Platform A the capture first enumerates the displays.  If
    the requested id is the id of one of the descriptors, or is 1, the
    command that is run is [screencapture -D <id> -x "<path>"] and no
    warning is logged.  Otherwise one warning is logged and the command
    that is run is [screencapture -x "<path>"], which captures the main
    display: the call goes on instead of failing. *)
Theorem darwin_targets_known_display_or_main
    (env : Env) (url : string) (options : Options) (w : World) :
  os_platform env = "darwin" ->
  let sid := resolve_screenId options in
  let shot := screenshotPath_at env w in
  let t := timeout_or_zero options in
  exists screens w1 rest,
    getAvailableScreens env (tick w) = (Ok screens, w1) /\
    forallb is_introspection (new_events w w1) = true /\
    forallb is_after_capture rest = true /\
    (In sid (map id screens) \/ sid = 1 ->
       new_events w (snd (takeScreenshot env url options w)) =
         (new_events w w1 ++
            ExecCmd ("screencapture -D " +:+ Js.string_of_Z sid +:+ " -x "
                       +:+ Js.dquote +:+ shot +:+ Js.dquote) (Some t) :: rest)%list /\
       forallb (fun e => negb (is_warning e))
         (new_events w (snd (takeScreenshot env url options w))) = true) /\
    (~ (In sid (map id screens) \/ sid = 1) ->
       new_events w (snd (takeScreenshot env url options w)) =
         (new_events w w1 ++
            ConsoleWarn ("Display ID " +:+ Js.string_of_Z sid
                           +:+ " not found, defaulting to main display") ::
            ExecCmd ("screencapture -x " +:+ Js.dquote +:+ shot +:+ Js.dquote) (Some t)
            :: rest)%list).
Proof.
  intros Hp sid shot t.
  destruct (getAvailableScreens_ok env (tick w)) as [screens Hv].
  pose proof (getAvailableScreens_extends env (tick w)) as Hext.
  destruct (getAvailableScreens env (tick w)) as [r0 w1] eqn:Hg.
  cbn [fst snd] in Hv, Hext. subst r0.
  apply extends_new_events in Hext as [Htr Fin].
  change (trace (tick w)) with (trace w) in Htr.
  change (new_events (tick w) w1) with (new_events w w1) in Htr, Fin.
  pose proof (select_command_darwin_eq env sid shot (tick w) screens w1 Hp Hg) as Hsel.
  assert (Hcond : existsb (fun screen => (id screen =? sid)%Z) screens || (sid =? 1)%Z = true
                  <-> In sid (map id screens) \/ sid = 1).
  { rewrite orb_true_iff, existsb_exists, in_map_iff, Z.eqb_eq.
    split; intros [H | H]; auto; left.
    - destruct H as [d [Hd Heq]]. apply Z.eqb_eq in Heq. exists d. auto.
    - destruct H as [d [Heq Hd]]. exists d. split; [exact Hd | apply Z.eqb_eq, Heq]. }
  destruct (existsb _ screens || (sid =? 1)%Z) eqn:Hc.
  - destruct (takeScreenshot_after_select env url options w _ _ Hsel) as [rest [Hr Fr]].
    exists screens, w1, rest.
    split; [reflexivity |]. split; [exact Fin |]. split; [exact Fr |].
    rewrite Htr, <- app_assoc in Hr. apply new_events_app in Hr.
    split.
    + intros _. split; [exact Hr |]. rewrite Hr.
      rewrite forallb_app. apply andb_true_intro. split.
      * revert Fin. apply forallb_weaken. intros [c [x |] | | | | |]; simpl; congruence.
      * simpl. revert Fr. apply forallb_weaken. intros [| | | | |]; simpl; congruence.
    + intros Hn. exfalso. apply Hn, Hcond. reflexivity.
  - destruct (takeScreenshot_after_select env url options w _ _ Hsel) as [rest [Hr Fr]].
    exists screens, w1, rest.
    split; [reflexivity |]. split; [exact Fin |]. split; [exact Fr |].
    cbn [trace record_event] in Hr.
    rewrite Htr, <- !app_assoc in Hr. apply new_events_app in Hr.
    split.
    + intros Hy. apply Hcond in Hy. discriminate.
    + intros _. exact Hr.
Qed.

Lemma darwin_unknown_display_witness :
  os_platform (Scenario.darwin Scenario.two_types (Err "Command failed")) = "darwin" /\
  In (ExecCmd (darwin_main_cmd Scenario.shot) (Some 0))
     (new_events Scenario.empty_world
        (snd (takeScreenshot (Scenario.darwin Scenario.two_types (Err "Command failed"))
                EmptyString (Scenario.options_for (Some 99) None)
                Scenario.empty_world))).
Proof.
  split; [reflexivity |].
  destruct (darwin_targets_known_display_or_main
              (Scenario.darwin Scenario.two_types (Err "Command failed"))
              EmptyString (Scenario.options_for (Some 99) None) Scenario.empty_world
              eq_refl) as [screens [w1 [rest [Hg [_ [_ [_ H]]]]]]].
  inversion Hg; subst screens w1; clear Hg.
  rewrite H.
  - apply in_or_app. right. right. left. reflexivity.
  - intros [Hin | H1]; [| discriminate].
    destruct Hin as [Heq | []]. discriminate.
Defined.

(** Two hosts that differ in their child processes only, and only for
    timeouts that a call never passes, cannot be told apart by it. *)
Section SameAnswers.

Variables env1 env2 : Env.
Hypothesis same_platform : os_platform env1 = os_platform env2.
Hypothesis same_tmpdir : os_tmpdir env1 = os_tmpdir env2.
Hypothesis same_clock_values : date_now env1 = date_now env2.
Hypothesis same_sharp : sharp_image env1 = sharp_image env2.
Hypothesis same_plain :
  forall cmd w, run_command env1 cmd None w = run_command env2 cmd None w.

Lemma after_exec_same cmd t w :
  run_command env1 cmd t w = run_command env2 cmd t w ->
  after_exec env1 cmd t w = after_exec env2 cmd t w.
Proof. intros H. unfold after_exec. rewrite H. reflexivity. Qed.

Lemma alternative_method_same displays w :
  alternative_method env1 displays w = alternative_method env2 displays w.
Proof.
  rewrite !alternative_method_eq.
  rewrite (after_exec_same rescan_cmd None w (same_plain _ _)), same_plain.
  reflexivity.
Qed.

Lemma getAvailableScreens_same w :
  getAvailableScreens env1 w = getAvailableScreens env2 w.
Proof.
  destruct (platform_cases env1) as [Hp | [Hp | Hp]].
  - rewrite !getAvailableScreens_darwin_eq by congruence.
    rewrite (after_exec_same introspection_cmd None w (same_plain _ _)), same_plain.
    destruct (fst (run_command env2 introspection_cmd None w)) as [stdout | e];
      [| reflexivity].
    destruct (length (displayData stdout) =? 0)%nat; [reflexivity |].
    destruct (length (displaySections stdout) =? 0)%nat; [reflexivity |].
    apply alternative_method_same.
  - rewrite !getAvailableScreens_placeholder_eq; [reflexivity | | exact Hp].
    rewrite <- same_platform. exact Hp.
  - rewrite !getAvailableScreens_unsupported_eq; [| | exact Hp].
    + rewrite same_platform. reflexivity.
    + rewrite <- same_platform. exact Hp.
Qed.

Lemma select_command_same sid path w :
  select_command env1 sid path w = select_command env2 sid path w.
Proof.
  unfold select_command. rewrite same_platform.
  destruct (String.eqb (os_platform env2) "darwin"); [| reflexivity].
  unfold bind. rewrite getAvailableScreens_same. reflexivity.
Qed.

Lemma encode_and_clean_same sid tmp shot w :
  encode_and_clean env1 sid tmp shot w = encode_and_clean env2 sid tmp shot w.
Proof.
  unfold encode_and_clean, bind, Date_now, sharp_resize_toFile, path_join.
  rewrite same_platform, same_clock_values, same_sharp. reflexivity.
Qed.

Lemma takeScreenshot_same url options w :
  (forall cmd w0,
     run_command env1 cmd (Some (timeout_or_zero options)) w0 =
     run_command env2 cmd (Some (timeout_or_zero options)) w0) ->
  takeScreenshot env1 url options w = takeScreenshot env2 url options w.
Proof.
  intros Hcapture. rewrite !takeScreenshot_eq, !takeScreenshot_try_eq.
  assert (Hshot : screenshotPath_at env1 w = screenshotPath_at env2 w).
  { unfold screenshotPath_at, path_join.
    rewrite same_platform, same_tmpdir, same_clock_values. reflexivity. }
  rewrite Hshot, select_command_same, same_tmpdir.
  destruct (select_command env2 _ _ (tick w)) as [[cmd | e] w2]; [| reflexivity].
  rewrite (after_exec_same cmd _ w2 (Hcapture _ _)), Hcapture.
  destruct (fst (run_command env2 cmd _ w2)); [| reflexivity].
  rewrite encode_and_clean_same. reflexivity.
Qed.

End SameAnswers.

(** C8.  When the [screenId] option is absent the engine uses screen 1:
    the call is the call for screen 1, it never resizes, and on
    Platform A the command that it runs is [screencapture -D 1 -x],
    without any warning.  Every child process that a capture starts with
    a [timeout] option gets [options.timeout || 0], and on a supported
    platform the capture command is started with that option: 0 when the
    option is absent or zero, the given number when it is positive.  On a
    host of Node, where 0 means that the parent waits for the child, a
    capture whose timeout is absent or zero does not depend on how long
    any of its commands lasts; with a positive timeout, a capture
    command that lasts longer is killed and the call fails with the
    error of the killed command, and one that ends in time is left to
    end. *)
Theorem screen_and_timeout_defaults
    (env : Env) (url : string) (options : Options) (w : World) :
  (screenId options = None ->
     takeScreenshot env url options w =
       takeScreenshot env url (with_screenId options (Some 1)) w /\
     forallb (fun e => negb (is_resize e))
       (new_events w (snd (takeScreenshot env url options w))) = true /\
     (os_platform env = "darwin" ->
        In (ExecCmd (darwin_display_cmd 1 (screenshotPath_at env w))
              (Some (timeout_or_zero options)))
           (new_events w (snd (takeScreenshot env url options w))) /\
        forallb (fun e => negb (is_warning e))
          (new_events w (snd (takeScreenshot env url options w))) = true)) /\
  (forall cmd t,
     In (ExecCmd cmd (Some t)) (new_events w (snd (takeScreenshot env url options w))) ->
     t = timeout_or_zero options) /\
  (supported_platform (os_platform env) = true ->
     (exists cmd,
        In (ExecCmd cmd (Some (timeout_or_zero options)))
           (new_events w (snd (takeScreenshot env url options w)))) /\
     (timeout options = None \/ timeout options = Some 0 ->
        exists cmd,
          In (ExecCmd cmd (Some 0))
             (new_events w (snd (takeScreenshot env url options w)))) /\
     (forall t, timeout options = Some t -> 0 < t ->
        exists cmd,
          In (ExecCmd cmd (Some t))
             (new_events w (snd (takeScreenshot env url options w))))) /\
  (forall (h : Host),
     (timeout options = None \/ timeout options = Some 0 ->
        forall d,
          takeScreenshot (node_env (with_durations d h)) url options w =
          takeScreenshot (node_env h) url options w) /\
     (forall t cmd w2,
        timeout options = Some t -> 0 < t ->
        select_command (node_env h) (resolve_screenId options)
          (screenshotPath_at (node_env h) w) (tick w) = (Ok cmd, w2) ->
        (t < lasts (processes h cmd w2) ->
           fst (takeScreenshot (node_env h) url options w) =
             Err ("Failed to capture screenshot: "
                    +:+ fst (when_killed (processes h cmd w2))) /\
           files (snd (takeScreenshot (node_env h) url options w)) =
             snd (when_killed (processes h cmd w2))) /\
        (lasts (processes h cmd w2) <= t ->
           run_command (node_env h) cmd (Some (timeout_or_zero options)) w2 =
             outcome (processes h cmd w2)))).
Proof.
  assert (Hevents := extends_new_events _ _ _ (takeScreenshot_extends env url options w)).
  destruct Hevents as [Htrace Fcap].
  assert (Hrun : supported_platform (os_platform env) = true ->
     exists cmd,
        In (ExecCmd cmd (Some (timeout_or_zero options)))
           (new_events w (snd (takeScreenshot env url options w)))).
  { intros Hs.
    destruct (select_command_supported env (resolve_screenId options)
                (screenshotPath_at env w) (tick w) Hs) as [cmd Hcmd].
    pose proof (select_command_extends env (resolve_screenId options)
                  (screenshotPath_at env w) (tick w)) as [evs [Hevs _]].
    destruct (select_command env _ _ (tick w)) as [r0 w2] eqn:Hsel.
    cbn [fst snd] in Hcmd, Hevs. subst r0.
    destruct (takeScreenshot_after_select env url options w cmd w2 Hsel) as [rest [Hr _]].
    change (trace (tick w)) with (trace w) in Hevs.
    rewrite Hevs, <- app_assoc in Hr. apply new_events_app in Hr.
    exists cmd. rewrite Hr. apply in_or_app. right. left. reflexivity. }
  split; [| split; [| split]].
  - intros Hnone.
    assert (Hone : resolve_screenId options = 1)
      by (unfold resolve_screenId; rewrite Hnone; reflexivity).
    split; [| split].
    + rewrite (takeScreenshot_honours env url url options
                 (with_screenId options (Some 1))); [reflexivity | exact Hone |].
      reflexivity.
    + revert Fcap. apply forallb_weaken.
      intros [| | | | |]; simpl; try reflexivity. rewrite Hone. discriminate.
    + intros Hp.
      destruct (getAvailableScreens_ok env (tick w)) as [screens Hv].
      pose proof (getAvailableScreens_extends env (tick w)) as Hext.
      destruct (getAvailableScreens env (tick w)) as [r0 w1] eqn:Hg.
      cbn [fst snd] in Hv, Hext. subst r0.
      destruct Hext as [evs0 [H0 F0]]. change (trace (tick w)) with (trace w) in H0.
      pose proof (select_command_darwin_eq env (resolve_screenId options)
                    (screenshotPath_at env w) (tick w) screens w1 Hp Hg) as Hsel.
      rewrite Hone in Hsel. change (1 =? 1)%Z with true in Hsel.
      rewrite orb_true_r in Hsel. rewrite <- Hone in Hsel at 1.
      destruct (takeScreenshot_after_select env url options w _ _ Hsel)
        as [rest [Hr Fr]].
      rewrite H0, <- app_assoc in Hr. apply new_events_app in Hr. rewrite Hr.
      split.
      * apply in_or_app. right. left. reflexivity.
      * rewrite forallb_app. apply andb_true_intro. split.
        -- revert F0. apply forallb_weaken.
           intros [c [x |] | | | | |]; simpl; congruence.
        -- simpl. revert Fr. apply forallb_weaken.
           intros [| | | | |]; simpl; congruence.
  - intros cmd t Hin.
    rewrite forallb_forall in Fcap. specialize (Fcap _ Hin). simpl in Fcap.
    apply Z.eqb_eq, Fcap.
  - intros Hs. split; [exact (Hrun Hs) |]. split.
    + intros Hzero. destruct (Hrun Hs) as [cmd Hcmd]. exists cmd.
      replace (timeout_or_zero options) with 0 in Hcmd; [exact Hcmd |].
      unfold timeout_or_zero. destruct Hzero as [H | H]; rewrite H; reflexivity.
    + intros t Ht Hpos. destruct (Hrun Hs) as [cmd Hcmd]. exists cmd.
      replace (timeout_or_zero options) with t in Hcmd; [exact Hcmd |].
      unfold timeout_or_zero. rewrite Ht.
      destruct (Z.eqb_spec t 0); [lia | reflexivity].
  - intros h. split.
    + intros Hzero d.
      assert (Hto : timeout_or_zero options = 0)
        by (unfold timeout_or_zero; destruct Hzero as [H | H]; rewrite H; reflexivity).
      apply takeScreenshot_same; try reflexivity.
      intros cmd w0. rewrite Hto. reflexivity.
    + intros t cmd w2 Ht Hpos Hsel.
      assert (Hto : timeout_or_zero options = t).
      { unfold timeout_or_zero. rewrite Ht.
        destruct (Z.eqb_spec t 0); [lia | reflexivity]. }
      assert (Hneg : (t <? 0)%Z = false) by (apply Z.ltb_ge; lia).
      assert (Hnz : (t =? 0)%Z = false) by (apply Z.eqb_neq; lia).
      split.
      * intros Hslow.
        assert (Hkill : run_command (node_env h) cmd (Some (timeout_or_zero options)) w2 =
                        (Err (fst (when_killed (processes h cmd w2))),
                         snd (when_killed (processes h cmd w2)))).
        { rewrite Hto. cbn [run_command node_env]. unfold node_exec.
          rewrite Hneg, Hnz.
          assert (Hle : (lasts (processes h cmd w2) <=? t)%Z = false)
            by (apply Z.leb_gt; exact Hslow).
          rewrite Hle. reflexivity. }
        rewrite takeScreenshot_eq, takeScreenshot_try_eq, Hsel.
        unfold after_exec. rewrite Hkill. split; reflexivity.
      * intros Hfast. rewrite Hto. cbn [run_command node_env]. unfold node_exec.
        rewrite Hneg, Hnz.
        assert (Hle : (lasts (processes h cmd w2) <=? t)%Z = true)
          by (apply Z.leb_le; exact Hfast).
        rewrite Hle. reflexivity.
Qed.

Lemma screen_and_timeout_witness :
  (timeout (Scenario.options_for None (Some 5000)) = Some 5000 /\
   0 < 5000 /\
   5000 < lasts (processes Timed.slow_linux (linux_cmd Scenario.shot)
                   (tick Scenario.empty_world))) /\
  fst (takeScreenshot (node_env Timed.slow_linux) EmptyString
         (Scenario.options_for None (Some 5000)) Scenario.empty_world) =
    Err "Failed to capture screenshot: Command failed: import -window root" /\
  fst (takeScreenshot (node_env Timed.slow_linux) EmptyString
         (Scenario.options_for None None) Scenario.empty_world) = Ok "iVBORw==" /\
  takeScreenshot Scenario.linux EmptyString (Scenario.options_for None (Some 5000))
    Scenario.empty_world =
  takeScreenshot Scenario.linux EmptyString (Scenario.options_for (Some 1) (Some 5000))
    Scenario.empty_world.
Proof.
  split; [repeat split |].
  destruct (screen_and_timeout_defaults (node_env Timed.slow_linux) EmptyString
              (Scenario.options_for None (Some 5000)) Scenario.empty_world)
    as [_ [_ [_ Hnode]]].
  destruct (Hnode Timed.slow_linux) as [_ Hlimit].
  destruct (Hlimit 5000 (linux_cmd Scenario.shot) (tick Scenario.empty_world)
              eq_refl eq_refl eq_refl) as [Hkilled _].
  split; [exact (proj1 (Hkilled eq_refl)) |].
  split; [reflexivity |].
  destruct (screen_and_timeout_defaults Scenario.linux EmptyString
              (Scenario.options_for None (Some 5000)) Scenario.empty_world)
    as [Hscreen _].
  exact (proj1 (Hscreen eq_refl)).
Defined.

(** C9.  Two calls whose options agree on [screenId] and [timeout], in
    the same world, give the same result and leave the same world (the
    same commands, the same resize, the same files), whatever their
    [url], [width], [height], [fullPage] and [waitForSelector]. *)
Theorem only_screen_and_timeout_are_honoured
    (env : Env) (url1 url2 : string) (options1 options2 : Options) (w : World) :
  screenId options1 = screenId options2 ->
  timeout options1 = timeout options2 ->
  takeScreenshot env url1 options1 w = takeScreenshot env url2 options2 w.
Proof.
  intros Hs Ht.
  rewrite (takeScreenshot_honours env url1 url2 options1 options2); [reflexivity | |].
  - unfold resolve_screenId. rewrite Hs. reflexivity.
  - unfold timeout_or_zero. rewrite Ht. reflexivity.
Qed.

Lemma only_screen_and_timeout_witness :
  screenId (Scenario.options_for (Some 2) (Some 5000)) =
    screenId (Scenario.browser_options (Some 2) (Some 5000)) /\
  timeout (Scenario.options_for (Some 2) (Some 5000)) =
    timeout (Scenario.browser_options (Some 2) (Some 5000)) /\
  takeScreenshot Scenario.linux EmptyString
    (Scenario.options_for (Some 2) (Some 5000)) Scenario.empty_world =
  takeScreenshot Scenario.linux "https://example.com"
    (Scenario.browser_options (Some 2) (Some 5000)) Scenario.empty_world.
Proof.
  split; [reflexivity |]. split; [reflexivity |].
  exact (only_screen_and_timeout_are_honoured Scenario.linux EmptyString
           "https://example.com" (Scenario.options_for (Some 2) (Some 5000))
           (Scenario.browser_options (Some 2) (Some 5000)) Scenario.empty_world
           eq_refl eq_refl).
Defined.

(** * Further properties of the code *)

(** ** The two temporary paths *)

Lemma append_cancel_l (a b c : string) : a +:+ b = a +:+ c -> b = c.
Proof.
  induction a as [| x a IH]; simpl; intros H; [exact H |].
  inversion H. apply IH. assumption.
Qed.

(** The text of a number never starts with the letter r. *)
Lemma string_of_Z_head (n : Z) (rest tail : string) :
  Js.string_of_Z n +:+ rest <> String "r" tail.
Proof.
  unfold Js.string_of_Z, NilZero.string_of_int, NilZero.string_of_uint.
  destruct (Z.to_int n) as [d | d]; destruct d; simpl; discriminate.
Qed.

Lemma resized_name_differs (env : Env) (dir : string) (n m : Z) :
  path_join env dir ("screenshot-" +:+ Js.string_of_Z n +:+ ".png") <>
  path_join env dir ("screenshot-resized-" +:+ Js.string_of_Z m +:+ ".png").
Proof.
  intros Heq. unfold path_join in Heq.
  apply append_cancel_l, append_cancel_l in Heq.
  apply (append_cancel_l "screenshot-") in Heq.
  exact (string_of_Z_head n ".png" _ Heq).
Qed.

(** X1.  The capture path and the resized path of one call are always
    different, whatever the two timestamps are (also when the clock
    gives the same value twice): the deletion of the capture file never
    removes the resized file. *)
Theorem temp_paths_differ (env : Env) (w : World) :
  screenshotPath_at env w <> resizedPath_at env w /\
  forall (dir : string) (n m : Z),
    path_join env dir ("screenshot-" +:+ Js.string_of_Z n +:+ ".png") <>
    path_join env dir ("screenshot-resized-" +:+ Js.string_of_Z m +:+ ".png").
Proof.
  split; [apply resized_name_differs | apply resized_name_differs].
Qed.

(** ** The end of a capture, case by case *)

Section CaptureOutcomes.

Variable env : Env.

Lemma encode_and_clean_plain sid tmp shot w raw :
  sid <> 2 ->
  files w !! shot = Some raw ->
  encode_and_clean env sid tmp shot w =
  (Ok (Base64.encode raw),
   set_files (delete shot (files w))
     (record_event (Unlink shot) (record_event (ReadFile shot) w))).
Proof.
  intros Hsid Hraw. apply Z.eqb_neq in Hsid.
  unfold encode_and_clean. rewrite Hsid.
  unfold bind, readFile, unlink. rewrite Hraw. cbn [files record_event].
  rewrite Hraw. reflexivity.
Qed.

Lemma encode_and_clean_resized tmp shot w raw image :
  files w !! shot = Some raw ->
  sharp_image env raw 819 1456 resize_options = Ok image ->
  shot <> resized_in env tmp w ->
  fst (encode_and_clean env 2 tmp shot w) = Ok (Base64.encode image) /\
  files (snd (encode_and_clean env 2 tmp shot w)) =
    delete (resized_in env tmp w) (delete shot (files w)).
Proof.
  intros Hraw Himg Hne. unfold encode_and_clean. change (2 =? 2)%Z with true. cbv iota.
  unfold bind, Date_now, sharp_resize_toFile, unlink, readFile, ret,
    record_event, set_files. simpl. fold (resized_in env tmp w).
  rewrite Hraw, Himg. simpl.
  rewrite lookup_insert_ne, Hraw by congruence. simpl.
  rewrite lookup_delete_ne, lookup_insert_eq by exact Hne. simpl.
  rewrite lookup_delete_ne, lookup_insert_eq by exact Hne. simpl.
  split; [reflexivity |].
  rewrite delete_insert_ne by congruence. apply delete_insert_eq.
Qed.

Lemma encode_and_clean_missing sid tmp shot w :
  files w !! shot = None ->
  fst (encode_and_clean env sid tmp shot w) =
    Err (if (sid =? 2)%Z then "Input file is missing: " +:+ shot
         else enoent "open" shot) /\
  files (snd (encode_and_clean env sid tmp shot w)) = files w.
Proof.
  intros Hnone. unfold encode_and_clean. destruct (sid =? 2)%Z.
  - unfold bind, Date_now, sharp_resize_toFile. simpl. rewrite Hnone.
    split; reflexivity.
  - unfold bind, readFile. rewrite Hnone. split; reflexivity.
Qed.

Lemma encode_and_clean_rejected tmp shot w raw e :
  files w !! shot = Some raw ->
  sharp_image env raw 819 1456 resize_options = Err e ->
  fst (encode_and_clean env 2 tmp shot w) = Err e /\
  files (snd (encode_and_clean env 2 tmp shot w)) = files w.
Proof.
  intros Hraw Himg. unfold encode_and_clean. change (2 =? 2)%Z with true. cbv iota.
  unfold bind, Date_now, sharp_resize_toFile. simpl. rewrite Hraw, Himg.
  split; reflexivity.
Qed.

(** Lines 66-100 write and delete at the two temporary paths only. *)
Lemma encode_and_clean_frame sid tmp shot w p :
  p <> shot -> (sid = 2 -> p <> resized_in env tmp w) ->
  files (snd (encode_and_clean env sid tmp shot w)) !! p = files w !! p.
Proof.
  intros Hs Hr. unfold encode_and_clean. destruct (Z.eqb_spec sid 2) as [H2 | H2].
  - specialize (Hr H2).
    unfold bind, Date_now, sharp_resize_toFile, unlink, readFile, ret,
      record_event, set_files. simpl. fold (resized_in env tmp w).
    destruct (files w !! shot) as [raw |]; [| reflexivity].
    destruct (sharp_image env raw 819 1456 resize_options) as [image | e];
      [| reflexivity].
    simpl.
    destruct (<[resized_in env tmp w:=image]> (files w) !! shot);
      [| simpl; rewrite lookup_insert_ne by congruence; reflexivity].
    simpl.
    destruct (delete shot (<[resized_in env tmp w:=image]> (files w))
                !! resized_in env tmp w) eqn:Hres; simpl.
    + rewrite Hres. simpl.
      rewrite !lookup_delete_ne, lookup_insert_ne by congruence. reflexivity.
    + rewrite lookup_delete_ne, lookup_insert_ne by congruence. reflexivity.
  - unfold bind, unlink, readFile, ret, record_event, set_files. simpl.
    destruct (files w !! shot) as [raw |] eqn:Hraw; [| reflexivity].
    simpl. rewrite Hraw. simpl. rewrite lookup_delete_ne by congruence. reflexivity.
Qed.

(** What is left of a call once its command is chosen. *)
Lemma takeScreenshot_from_select url options w cmd w2 :
  select_command env (resolve_screenId options) (screenshotPath_at env w) (tick w)
    = (Ok cmd, w2) ->
  clock_reads w2 = S (clock_reads w) /\
  takeScreenshot env url options w =
  match fst (run_command env cmd (Some (timeout_or_zero options)) w2) with
  | Ok _ =>
      match encode_and_clean env (resolve_screenId options) (os_tmpdir env)
              (screenshotPath_at env w)
              (after_exec env cmd (Some (timeout_or_zero options)) w2) with
      | (Ok v, w') => (Ok v, w')
      | (Err e, w') =>
          (Err ("Failed to capture screenshot: " +:+ e),
           record_event (ConsoleError "Error taking screenshot:" e) w')
      end
  | Err e =>
      (Err ("Failed to capture screenshot: " +:+ e),
       record_event (ConsoleError "Error taking screenshot:" e)
         (after_exec env cmd (Some (timeout_or_zero options)) w2))
  end.
Proof.
  intros Hsel. split.
  - pose proof (select_command_clock env (resolve_screenId options)
                  (screenshotPath_at env w) (tick w)) as Hc.
    rewrite Hsel in Hc. exact Hc.
  - rewrite takeScreenshot_eq, takeScreenshot_try_eq, Hsel.
    destruct (fst (run_command env cmd _ w2)); reflexivity.
Qed.

End CaptureOutcomes.

(** X2.  Once the capture command has ended well and a file stands at
    the capture path, a capture of a screen other than 2 returns the
    base64 text of that file, and a capture of screen 2 whose resize is
    accepted returns the base64 text of the resized image.  The disk is
    then as the command left it, less the capture path and, for screen
    2, less the resized path (a file that was already there is lost). *)
Theorem capture_returns_when_each_step_succeeds
    (env : Env) (url : string) (options : Options) (w : World)
    (cmd : string) (w2 : World) (out : string) (fs : gmap string (list byte))
    (raw : list byte) :
  select_command env (resolve_screenId options) (screenshotPath_at env w) (tick w)
    = (Ok cmd, w2) ->
  run_command env cmd (Some (timeout_or_zero options)) w2 = (Ok out, fs) ->
  fs !! screenshotPath_at env w = Some raw ->
  (resolve_screenId options <> 2 ->
     fst (takeScreenshot env url options w) = Ok (Base64.encode raw) /\
     files (snd (takeScreenshot env url options w)) =
       delete (screenshotPath_at env w) fs) /\
  (forall image,
     resolve_screenId options = 2 ->
     sharp_image env raw 819 1456 resize_options = Ok image ->
     fst (takeScreenshot env url options w) = Ok (Base64.encode image) /\
     files (snd (takeScreenshot env url options w)) =
       delete (resizedPath_at env w) (delete (screenshotPath_at env w) fs)).
Proof.
  intros Hsel Hrun Hraw.
  destruct (takeScreenshot_from_select env url options w cmd w2 Hsel) as [Hc Ht].
  rewrite Ht, Hrun. cbn [fst].
  set (w3 := after_exec env cmd (Some (timeout_or_zero options)) w2).
  assert (Hfs : files w3 = fs) by (unfold w3, after_exec; rewrite Hrun; reflexivity).
  split.
  - intros Hsid.
    rewrite (encode_and_clean_plain env _ _ _ w3 raw Hsid) by (rewrite Hfs; exact Hraw).
    cbn [fst snd files set_files]. rewrite Hfs. split; reflexivity.
  - intros image Hsid Himg. rewrite Hsid.
    assert (Hres : resized_in env (os_tmpdir env) w3 = resizedPath_at env w).
    { unfold resized_in, resizedPath_at.
      change (clock_reads w3) with (clock_reads w2). rewrite Hc. reflexivity. }
    assert (Hraw3 : files w3 !! screenshotPath_at env w = Some raw)
      by (rewrite Hfs; exact Hraw).
    assert (Hne : screenshotPath_at env w <> resized_in env (os_tmpdir env) w3)
      by (rewrite Hres; apply resized_name_differs).
    destruct (encode_and_clean_resized env (os_tmpdir env) (screenshotPath_at env w)
                w3 raw image Hraw3 Himg Hne) as [Hv Hf].
    rewrite Hres, Hfs in Hf.
    destruct (encode_and_clean env 2 _ _ w3) as [[v | e] w4]; cbn [fst snd] in *;
      [| discriminate].
    split; assumption.
Qed.

Lemma capture_returns_witness :
  run_command Scenario.linux (linux_cmd Scenario.shot) (Some 0)
    (tick Cases.world_with_notes) =
    (Ok EmptyString, <[Scenario.shot := Scenario.png]> (files Cases.world_with_notes)) /\
  fst (takeScreenshot Scenario.linux EmptyString (Scenario.options_for (Some 1) None)
         Cases.world_with_notes) = Ok "iVBORw==" /\
  files (snd (takeScreenshot Scenario.linux EmptyString
                (Scenario.options_for (Some 1) None) Cases.world_with_notes))
    !! Cases.notes = Some [x68; x69].
Proof.
  split; [reflexivity |].
  destruct (capture_returns_when_each_step_succeeds Scenario.linux EmptyString
              (Scenario.options_for (Some 1) None) Cases.world_with_notes
              (linux_cmd Scenario.shot) (tick Cases.world_with_notes) EmptyString
              (<[Scenario.shot := Scenario.png]> (files Cases.world_with_notes))
              Scenario.png eq_refl eq_refl eq_refl) as [H _].
  destruct H as [Hv Hf]; [discriminate |].
  split; [exact Hv |]. rewrite Hf. reflexivity.
Defined.

(** X3.  Whatever its outcome, a capture leaves every file other than
    its two temporary paths as the capture command left it: the program
    itself writes and deletes nowhere else.  For a screen other than 2
    this holds for every path but the capture path. *)
Theorem capture_touches_only_its_temp_paths
    (env : Env) (url : string) (options : Options) (w : World)
    (cmd : string) (w2 : World) (p : string) :
  select_command env (resolve_screenId options) (screenshotPath_at env w) (tick w)
    = (Ok cmd, w2) ->
  p <> screenshotPath_at env w ->
  (resolve_screenId options = 2 -> p <> resizedPath_at env w) ->
  files (snd (takeScreenshot env url options w)) !! p =
  snd (run_command env cmd (Some (timeout_or_zero options)) w2) !! p.
Proof.
  intros Hsel Hshot Hres.
  destruct (takeScreenshot_from_select env url options w cmd w2 Hsel) as [Hc Ht].
  rewrite Ht.
  set (w3 := after_exec env cmd (Some (timeout_or_zero options)) w2).
  change (snd (run_command env cmd (Some (timeout_or_zero options)) w2))
    with (files w3).
  destruct (fst (run_command env cmd _ w2)); [| reflexivity].
  pose proof (encode_and_clean_frame env (resolve_screenId options) (os_tmpdir env)
                (screenshotPath_at env w) w3 p Hshot) as Hf.
  assert (Hr : resized_in env (os_tmpdir env) w3 = resizedPath_at env w).
  { unfold resized_in, resizedPath_at.
    change (clock_reads w3) with (clock_reads w2). rewrite Hc. reflexivity. }
  rewrite Hr in Hf. specialize (Hf Hres).
  destruct (encode_and_clean env _ _ _ w3) as [[v | e] w4]; exact Hf.
Qed.

Lemma capture_touches_witness :
  Cases.notes <> screenshotPath_at Scenario.linux_bad_image Cases.world_with_notes /\
  Cases.notes <> resizedPath_at Scenario.linux_bad_image Cases.world_with_notes /\
  files (snd (takeScreenshot Scenario.linux_bad_image EmptyString
                (Scenario.options_for (Some 2) None) Cases.world_with_notes))
    !! Cases.notes = Some [x68; x69].
Proof.
  split; [discriminate |]. split; [discriminate |].
  rewrite (capture_touches_only_its_temp_paths Scenario.linux_bad_image EmptyString
             (Scenario.options_for (Some 2) None) Cases.world_with_notes
             (linux_cmd Scenario.shot) (tick Cases.world_with_notes) Cases.notes
             eq_refl).
  - reflexivity.
  - discriminate.
  - intros _. discriminate.
Defined.

(** X4.  When the capture command fails (it is missing, it exits with
    an error, it is killed at the timeout), the call fails with the
    message of the command behind [Failed to capture screenshot: ], and
    the program does nothing more than log the error: it does not
    resize, read or delete, and the disk stays as the command left
    it. *)
Theorem failed_command_stops_the_capture
    (env : Env) (url : string) (options : Options) (w : World)
    (cmd : string) (w2 : World) (e : string) (fs : gmap string (list byte)) :
  select_command env (resolve_screenId options) (screenshotPath_at env w) (tick w)
    = (Ok cmd, w2) ->
  run_command env cmd (Some (timeout_or_zero options)) w2 = (Err e, fs) ->
  fst (takeScreenshot env url options w) = Err ("Failed to capture screenshot: " +:+ e) /\
  trace (snd (takeScreenshot env url options w)) =
    (trace w2 ++ [ExecCmd cmd (Some (timeout_or_zero options));
                  ConsoleError "Error taking screenshot:" e])%list /\
  files (snd (takeScreenshot env url options w)) = fs.
Proof.
  intros Hsel Hrun.
  destruct (takeScreenshot_from_select env url options w cmd w2 Hsel) as [_ Ht].
  rewrite Ht, Hrun. cbn [fst snd]. split; [reflexivity |]. split.
  - cbn [trace record_event after_exec set_files]. rewrite <- app_assoc. reflexivity.
  - unfold after_exec. rewrite Hrun. reflexivity.
Qed.

Lemma failed_command_witness :
  run_command Cases.linux_no_tool (linux_cmd Scenario.shot) (Some 0)
    (tick Scenario.empty_world) = (Err "Command failed: import: not found", ∅) /\
  fst (takeScreenshot Cases.linux_no_tool EmptyString (Scenario.options_for None None)
         Scenario.empty_world) =
    Err "Failed to capture screenshot: Command failed: import: not found".
Proof.
  split; [reflexivity |].
  exact (proj1 (failed_command_stops_the_capture Cases.linux_no_tool EmptyString
                  (Scenario.options_for None None) Scenario.empty_world
                  (linux_cmd Scenario.shot) (tick Scenario.empty_world)
                  "Command failed: import: not found" ∅ eq_refl eq_refl)).
Defined.

(** X5.  When the capture command ends well but no file stands at the
    capture path, the call fails: for a screen other than 2 with the
    [ENOENT] error of the read, for screen 2 with the missing-input
    error of the resize; and the disk stays as the command left it. *)
Theorem missing_capture_file_fails
    (env : Env) (url : string) (options : Options) (w : World)
    (cmd : string) (w2 : World) (out : string) (fs : gmap string (list byte)) :
  select_command env (resolve_screenId options) (screenshotPath_at env w) (tick w)
    = (Ok cmd, w2) ->
  run_command env cmd (Some (timeout_or_zero options)) w2 = (Ok out, fs) ->
  fs !! screenshotPath_at env w = None ->
  fst (takeScreenshot env url options w) =
    Err ("Failed to capture screenshot: " +:+
         (if (resolve_screenId options =? 2)%Z
          then "Input file is missing: " +:+ screenshotPath_at env w
          else "ENOENT: no such file or directory, open '"
                 +:+ screenshotPath_at env w +:+ "'")) /\
  files (snd (takeScreenshot env url options w)) = fs.
Proof.
  intros Hsel Hrun Hnone.
  destruct (takeScreenshot_from_select env url options w cmd w2 Hsel) as [_ Ht].
  rewrite Ht, Hrun. cbn [fst].
  set (w3 := after_exec env cmd (Some (timeout_or_zero options)) w2).
  assert (Hfs : files w3 = fs) by (unfold w3, after_exec; rewrite Hrun; reflexivity).
  assert (Hnone3 : files w3 !! screenshotPath_at env w = None)
    by (rewrite Hfs; exact Hnone).
  destruct (encode_and_clean_missing env (resolve_screenId options) (os_tmpdir env)
              (screenshotPath_at env w) w3 Hnone3) as [Hv Hf].
  destruct (encode_and_clean env _ _ _ w3) as [[v | e] w4]; cbn [fst snd] in *;
    [discriminate |].
  inversion Hv; subst e. cbn [files record_event]. rewrite Hf, Hfs.
  split; [| reflexivity].
  destruct (resolve_screenId options =? 2)%Z; reflexivity.
Qed.

Lemma missing_capture_file_witness :
  run_command Cases.linux_silent (linux_cmd Scenario.shot) (Some 0)
    (tick Scenario.empty_world) = (Ok EmptyString, ∅) /\
  fst (takeScreenshot Cases.linux_silent EmptyString (Scenario.options_for None None)
         Scenario.empty_world) =
    Err "Failed to capture screenshot: ENOENT: no such file or directory, open '/tmp/screenshot-1700000000000.png'".
Proof.
  split; [reflexivity |].
  exact (proj1 (missing_capture_file_fails Cases.linux_silent EmptyString
                  (Scenario.options_for None None) Scenario.empty_world
                  (linux_cmd Scenario.shot) (tick Scenario.empty_world)
                  EmptyString ∅ eq_refl eq_refl eq_refl)).
Defined.

(** ** Platforms B and C *)

(** X6.  On [win32] and on [linux] the capture command is chosen
    without any enumeration and does not mention the screen: the only
    use of [screenId] is the test for screen 2.  So two calls for
    screens other than 2, with the same timeout, in the same world,
    have the same result and leave the same world. *)
Theorem placeholder_platforms_ignore_the_screen
    (env : Env) (url1 url2 : string) (options1 options2 : Options) (w : World) :
  os_platform env = "win32" \/ os_platform env = "linux" ->
  timeout options1 = timeout options2 ->
  resolve_screenId options1 <> 2 ->
  resolve_screenId options2 <> 2 ->
  (forall sid path w0,
     select_command env sid path w0 =
     (Ok (if String.eqb (os_platform env) "win32" then win32_cmd path
          else linux_cmd path), w0)) /\
  takeScreenshot env url1 options1 w = takeScreenshot env url2 options2 w.
Proof.
  intros Hp Ht H1 H2.
  assert (Hsel : forall sid path w0,
     select_command env sid path w0 =
     (Ok (if String.eqb (os_platform env) "win32" then win32_cmd path
          else linux_cmd path), w0)).
  { intros sid path w0. rewrite select_command_placeholder_eq.
    destruct Hp as [Hp | Hp]; rewrite Hp; reflexivity. }
  split; [exact Hsel |].
  rewrite !takeScreenshot_eq, !takeScreenshot_try_eq, !Hsel.
  assert (Hto : timeout_or_zero options1 = timeout_or_zero options2)
    by (unfold timeout_or_zero; rewrite Ht; reflexivity).
  rewrite Hto. unfold encode_and_clean.
  apply Z.eqb_neq in H1, H2. rewrite H1, H2. reflexivity.
Qed.

Lemma placeholder_platforms_witness :
  os_platform Scenario.linux = "linux" /\
  resolve_screenId (Scenario.options_for (Some 0) None) <> 2 /\
  resolve_screenId (Scenario.options_for (Some 7) None) <> 2 /\
  takeScreenshot Scenario.linux EmptyString (Scenario.options_for (Some 0) None)
    Scenario.empty_world =
  takeScreenshot Scenario.linux EmptyString (Scenario.options_for (Some 7) None)
    Scenario.empty_world.
Proof.
  split; [reflexivity |]. split; [discriminate |]. split; [discriminate |].
  apply (placeholder_platforms_ignore_the_screen Scenario.linux EmptyString EmptyString
           (Scenario.options_for (Some 0) None) (Scenario.options_for (Some 7) None)
           Scenario.empty_world).
  - right. reflexivity.
  - reflexivity.
  - discriminate.
  - discriminate.
Defined.

(** ** More on the enumerator *)

Lemma append_nonempty (a b : string) :
  Js.is_empty a = false -> Js.is_empty (a +:+ b) = false.
Proof. destruct a; [discriminate | reflexivity]. Qed.

Lemma describe_nonempty (f : Fields) : Js.is_empty (describe f) = false.
Proof.
  unfold describe.
  assert (Hbase : Js.is_empty
            (if negb (Js.is_empty (displayName f)) then displayName f
             else if negb (Js.is_empty (displayType f)) then displayType f
             else "Display") = false).
  { destruct (Js.is_empty (displayName f)) eqn:Hn; simpl; [| exact Hn].
    destruct (Js.is_empty (displayType f)) eqn:Ht; simpl; [reflexivity | exact Ht]. }
  destruct (negb (Js.is_empty (resolution f))); [| exact Hbase].
  apply append_nonempty, Hbase.
Qed.

Lemma described_sections (sections : list string) :
  Forall described (imap section_display sections).
Proof.
  apply Forall_lookup_2. intros i d H. rewrite list_lookup_imap in H.
  destruct (sections !! i); simpl in H; [| discriminate].
  inversion H. apply describe_nonempty.
Qed.

Lemma described_resolutions (lines : list string) :
  Forall described (imap resolution_display lines).
Proof.
  apply Forall_lookup_2. intros i d H. rewrite list_lookup_imap in H.
  destruct (lines !! i); simpl in H; [| discriminate].
  inversion H. unfold described, resolution_display. cbn [description].
  destruct (i =? 0)%nat; reflexivity.
Qed.

(** X7.  Every descriptor that [getAvailableScreens] returns has a
    description that is not empty, on every platform and on every path:
    a section without name, type and resolution is called [Display]. *)
Theorem every_descriptor_is_described (env : Env) (w : World) :
  exists v,
    fst (getAvailableScreens env w) = Ok v /\
    Forall (fun d => description d <> EmptyString) v.
Proof.
  assert (H : exists v, fst (getAvailableScreens env w) = Ok v /\ Forall described v).
  { assert (Hm : Forall described main_display) by (repeat constructor).
    destruct (platform_cases env) as [Hp | [Hp | Hp]].
    - rewrite getAvailableScreens_darwin_eq by exact Hp.
      destruct (fst (run_command env introspection_cmd None w)) as [stdout | e];
        [| exists main_display; auto].
      destruct (length (displayData stdout) =? 0)%nat; [exists main_display; auto |].
      destruct (length (displaySections stdout) =? 0)%nat; [exists main_display; auto |].
      rewrite alternative_method_eq.
      pose proof (described_sections (displaySections stdout)) as Hs.
      destruct (length _ <=? 1)%nat; [| eexists; split; [reflexivity | exact Hs]].
      destruct (fst (run_command env rescan_cmd None _)) as [info | e];
        [| eexists; split; [reflexivity | exact Hs]].
      destruct (1 <? length (resolution_lines info))%nat;
        eexists; (split; [reflexivity |]); [apply described_resolutions | exact Hs].
    - rewrite getAvailableScreens_placeholder_eq by exact Hp.
      exists primary_screen. split; [reflexivity | repeat constructor].
    - rewrite getAvailableScreens_unsupported_eq by exact Hp.
      exists main_display. auto. }
  destruct H as [v [Hv Hd]]. exists v. split; [exact Hv |].
  eapply Forall_impl; [exact Hd |]. intros d Hdd Heq. unfold described in Hdd.
  rewrite Heq in Hdd. discriminate.
Qed.

(** The events of an enumeration on [darwin]. *)
Lemma enumeration_events_darwin (env : Env) (w : World) :
  os_platform env = "darwin" ->
  exists tail,
    new_events w (snd (getAvailableScreens env w)) =
      ExecCmd introspection_cmd None :: tail /\
    (tail = [] \/
     (exists e, tail = [ConsoleError "Error listing screens:" e]) \/
     tail = [ExecCmd rescan_cmd None] \/
     (exists e, tail = [ExecCmd rescan_cmd None;
                        ConsoleError "Error getting alternative screen info:" e])).
Proof.
  intros Hp. rewrite getAvailableScreens_darwin_eq by exact Hp.
  set (w1 := after_exec env introspection_cmd None w).
  assert (H1 : trace w1 = (trace w ++ [ExecCmd introspection_cmd None])%list)
    by reflexivity.
  destruct (fst (run_command env introspection_cmd None w)) as [stdout | e].
  - assert (Hstop : exists tail,
        new_events w w1 = ExecCmd introspection_cmd None :: tail /\
        (tail = [] \/
         (exists e, tail = [ConsoleError "Error listing screens:" e]) \/
         tail = [ExecCmd rescan_cmd None] \/
         (exists e, tail = [ExecCmd rescan_cmd None;
                            ConsoleError "Error getting alternative screen info:" e]))).
    { exists []. split; [apply new_events_app, H1 | left; reflexivity]. }
    destruct (length (displayData stdout) =? 0)%nat; [exact Hstop |].
    destruct (length (displaySections stdout) =? 0)%nat; [exact Hstop |].
    rewrite alternative_method_eq.
    destruct (length _ <=? 1)%nat; [| exact Hstop].
    destruct (fst (run_command env rescan_cmd None w1)) as [info | e].
    + exists [ExecCmd rescan_cmd None]. split.
      * apply new_events_app. subst w1. cbn [snd trace after_exec set_files record_event].
        rewrite <- app_assoc. reflexivity.
      * right. right. left. reflexivity.
    + eexists. split.
      * apply new_events_app. subst w1. cbn [snd trace after_exec set_files record_event].
        rewrite <- !app_assoc. reflexivity.
      * right. right. right. exists e. reflexivity.
  - eexists. split.
    + apply new_events_app. subst w1. cbn [snd trace after_exec set_files record_event].
      rewrite <- app_assoc. reflexivity.
    + right. left. exists e. reflexivity.
Qed.

(** X8.  The effects of an enumeration.  On [win32] and on [linux] it
    has none: the world is left as it was.  On [darwin] it first runs the
    introspection command, and then at most one thing more: nothing, or
    the log of that command's failure, or the resolution command,
    followed by a log if that one fails.  So it starts at most two
    child processes, never with a timeout. *)
Theorem enumeration_effects (env : Env) (w : World) :
  (os_platform env = "win32" \/ os_platform env = "linux" ->
     getAvailableScreens env w = (Ok primary_screen, w)) /\
  (os_platform env = "darwin" ->
     exists tail,
       new_events w (snd (getAvailableScreens env w)) =
         ExecCmd introspection_cmd None :: tail /\
       (tail = [] \/
        (exists e, tail = [ConsoleError "Error listing screens:" e]) \/
        tail = [ExecCmd rescan_cmd None] \/
        (exists e, tail = [ExecCmd rescan_cmd None;
                           ConsoleError "Error getting alternative screen info:" e]))).
Proof.
  split; [apply getAvailableScreens_placeholder_eq | apply enumeration_events_darwin].
Qed.

Lemma enumeration_effects_witness :
  os_platform (Scenario.darwin Scenario.two_types (Ok Scenario.grep_two_resolutions))
    = "darwin" /\
  exists tail,
    new_events Scenario.empty_world
      (snd (getAvailableScreens
              (Scenario.darwin Scenario.two_types (Ok Scenario.grep_two_resolutions))
              Scenario.empty_world)) =
      ExecCmd introspection_cmd None :: tail.
Proof.
  split; [reflexivity |].
  destruct (enumeration_effects
              (Scenario.darwin Scenario.two_types (Ok Scenario.grep_two_resolutions))
              Scenario.empty_world) as [_ H].
  destruct (H eq_refl) as [tail [Ht _]]. exists tail. exact Ht.
Defined.

(** ** The tool handlers *)

Section ToolFacts.

Variable env : Env.

Lemma await_eq {A} (m : M A) (s : Server) :
  await m s = (fst (m (host s)), {| host := snd (m (host s)); stdout_log := stdout_log s |}).
Proof. unfold await. destruct (m (host s)). reflexivity. Qed.

(** A failure of [takeScreenshot] always carries the prefix of its handler. *)
Lemma takeScreenshot_error_prefix url options w e :
  fst (takeScreenshot env url options w) = Err e ->
  exists cause w1,
    takeScreenshot_try env url options w = (Err cause, w1) /\
    e = "Failed to capture screenshot: " +:+ cause /\
    snd (takeScreenshot env url options w) =
      record_event (ConsoleError "Error taking screenshot:" cause) w1.
Proof.
  rewrite takeScreenshot_eq.
  destruct (takeScreenshot_try env url options w) as [[v | cause] w1]; cbn [fst snd];
    [discriminate |].
  intros H. inversion H. exists cause, w1. repeat split.
Qed.

Lemma takeScreenshot_tool_ok screenId timeout s v :
  let target := match screenId with Some n => n | None => 1 end in
  let call := takeScreenshot env EmptyString (tool_options target timeout) (host s) in
  fst call = Ok v ->
  takeScreenshot_tool env screenId timeout s =
    (Ok [TextContent ("Screenshot of screen " +:+ Js.string_of_Z target
                        +:+ " captured successfully");
         ImageContent v "image/png"],
     {| host := snd call;
        stdout_log :=
          (stdout_log s ++
             ["Taking screenshot of screen " +:+ Js.string_of_Z target +:+ "...";
              "Screenshot captured successfully"])%list |}).
Proof.
  intros target call Hv.
  unfold takeScreenshot_tool, tool_try_catch, tool_bind, console_log.
  fold target. rewrite await_eq. cbn [host stdout_log]. fold call. rewrite Hv.
  cbn [host stdout_log]. rewrite <- app_assoc. reflexivity.
Qed.

Lemma takeScreenshot_tool_err screenId timeout s e :
  let target := match screenId with Some n => n | None => 1 end in
  let call := takeScreenshot env EmptyString (tool_options target timeout) (host s) in
  fst call = Err e ->
  takeScreenshot_tool env screenId timeout s =
    (Ok [TextContent ("Error taking screenshot: " +:+ e)],
     {| host := record_event (ConsoleError "Error taking screenshot:" e) (snd call);
        stdout_log :=
          (stdout_log s ++
             ["Taking screenshot of screen " +:+ Js.string_of_Z target +:+ "..."])%list
     |}).
Proof.
  intros target call He.
  unfold takeScreenshot_tool, tool_try_catch, tool_bind, console_log.
  fold target. rewrite await_eq. cbn [host stdout_log]. fold call. rewrite He.
  unfold await, console_error. reflexivity.
Qed.

End ToolFacts.

(** X9.  The tool [listScreens] never answers with its error text:
    since [getAvailableScreens] does not throw, the handler always
    returns one text block, [Available screens:] followed by one
    [Screen <id>: <description>] entry per descriptor, separated by
    line feeds, after one line on the standard output.  On a platform
    that is not supported the answer is the listing of the Main
    Display, not an error. *)
Theorem listScreens_tool_always_lists (env : Env) (s : Server) :
  (exists screens w',
     getAvailableScreens env (host s) = (Ok screens, w') /\
     listScreens_tool env s =
       (Ok [TextContent ("Available screens:" +:+ Js.nl +:+
                         String.concat Js.nl (map format_screen screens))],
        {| host := w';
           stdout_log := (stdout_log s ++ ["Listing available screens..."])%list |})) /\
  (supported_platform (os_platform env) = false ->
     fst (listScreens_tool env s) =
       Ok [TextContent ("Available screens:" +:+ Js.nl +:+ "Screen 1: Main Display")]).
Proof.
  assert (Hrun : forall screens w', getAvailableScreens env (host s) = (Ok screens, w') ->
    listScreens_tool env s =
       (Ok [TextContent ("Available screens:" +:+ Js.nl +:+
                         String.concat Js.nl (map format_screen screens))],
        {| host := w';
           stdout_log := (stdout_log s ++ ["Listing available screens..."])%list |})).
  { intros screens w' Hg.
    unfold listScreens_tool, tool_try_catch, tool_bind, console_log.
    rewrite await_eq. cbn [host stdout_log]. rewrite Hg. reflexivity. }
  split.
  - destruct (getAvailableScreens_ok env (host s)) as [screens Hv].
    destruct (getAvailableScreens env (host s)) as [r0 w'] eqn:Hg.
    cbn [fst] in Hv. subst r0. exists screens, w'. split; [reflexivity |].
    apply Hrun. reflexivity.
  - intros Hp. erewrite Hrun.
    2: { apply getAvailableScreens_unsupported_eq, Hp. }
    reflexivity.
Qed.

Lemma listScreens_tool_witness :
  supported_platform (os_platform Scenario.freebsd) = false /\
  fst (listScreens_tool Scenario.freebsd (Cases.server Scenario.empty_world)) =
    Ok [TextContent ("Available screens:" +:+ Js.nl +:+ "Screen 1: Main Display")].
Proof.
  split; [reflexivity |].
  exact (proj2 (listScreens_tool_always_lists Scenario.freebsd
                  (Cases.server Scenario.empty_world)) eq_refl).
Defined.

(** X10.  The tool [takeScreenshot] never throws.  It calls the core
    with an empty url, the requested screen (1 when absent) and the
    timeout as given.  When the core returns a value, the answer is a
    confirmation text and one [image/png] block that carries that
    value.  When the core fails, the answer is a single text block,
    [Error taking screenshot: Failed to capture screenshot: <cause>],
    and the error has been logged twice, first by the core with the
    cause and then by the handler with the wrapped message. *)
Theorem takeScreenshot_tool_answers
    (env : Env) (screenId timeout : option Z) (s : Server) :
  let target := match screenId with Some n => n | None => 1 end in
  let call := takeScreenshot env EmptyString (tool_options target timeout) (host s) in
  (forall v, fst call = Ok v ->
     takeScreenshot_tool env screenId timeout s =
       (Ok [TextContent ("Screenshot of screen " +:+ Js.string_of_Z target
                           +:+ " captured successfully");
            ImageContent v "image/png"],
        {| host := snd call;
           stdout_log :=
             (stdout_log s ++
                ["Taking screenshot of screen " +:+ Js.string_of_Z target +:+ "...";
                 "Screenshot captured successfully"])%list |})) /\
  (forall e, fst call = Err e ->
     exists cause w1,
       takeScreenshot_try env EmptyString (tool_options target timeout) (host s)
         = (Err cause, w1) /\
       fst (takeScreenshot_tool env screenId timeout s) =
         Ok [TextContent ("Error taking screenshot: Failed to capture screenshot: "
                            +:+ cause)] /\
       trace (host (snd (takeScreenshot_tool env screenId timeout s))) =
         (trace w1 ++
            [ConsoleError "Error taking screenshot:" cause;
             ConsoleError "Error taking screenshot:"
               ("Failed to capture screenshot: " +:+ cause)])%list) /\
  (exists blocks, fst (takeScreenshot_tool env screenId timeout s) = Ok blocks).
Proof.
  intros target call.
  split; [intros v Hv; apply (takeScreenshot_tool_ok env screenId timeout s v Hv) |].
  split.
  - intros e He.
    destruct (takeScreenshot_error_prefix env _ _ _ e He) as [cause [w1 [Htry [Hpre Hw]]]].
    exists cause, w1. split; [exact Htry |].
    rewrite (takeScreenshot_tool_err env screenId timeout s e He).
    cbv zeta. cbn [fst snd host]. subst e. split; [reflexivity |].
    fold target. rewrite Hw. cbn [trace record_event].
    rewrite <- app_assoc. reflexivity.
  - destruct (fst call) as [v | e] eqn:Hc.
    + rewrite (takeScreenshot_tool_ok env screenId timeout s v Hc). eexists. reflexivity.
    + rewrite (takeScreenshot_tool_err env screenId timeout s e Hc). eexists. reflexivity.
Qed.

Lemma takeScreenshot_tool_witness :
  fst (takeScreenshot Cases.linux_no_tool EmptyString (tool_options 1 None)
         Scenario.empty_world) =
    Err "Failed to capture screenshot: Command failed: import: not found" /\
  fst (takeScreenshot_tool Cases.linux_no_tool None None
         (Cases.server Scenario.empty_world)) =
    Ok [TextContent "Error taking screenshot: Failed to capture screenshot: Command failed: import: not found"].
Proof.
  split; [reflexivity |].
  destruct (takeScreenshot_tool_answers Cases.linux_no_tool None None
              (Cases.server Scenario.empty_world)) as [_ [H _]].
  destruct (H "Failed to capture screenshot: Command failed: import: not found" eq_refl)
    as [cause [w1 [Htry [Hv _]]]].
  inversion Htry; subst cause w1. exact Hv.
Defined.

(** X11.  On [darwin], when the requested screen is neither 1 nor one
    of the enumerated ids and the capture succeeds, the tool confirms a
    screenshot of the requested screen, although the only capture
    command that was run is the one for the main display. *)
Theorem degraded_capture_is_confirmed_under_the_requested_id
    (env : Env) (sid : Z) (timeout : option Z) (s : Server)
    (screens : list ScreenDescriptor) (w1 : World) (v : string) :
  os_platform env = "darwin" ->
  getAvailableScreens env (tick (host s)) = (Ok screens, w1) ->
  ~ In sid (map id screens) ->
  sid <> 1 ->
  fst (takeScreenshot env EmptyString (tool_options sid timeout) (host s)) = Ok v ->
  fst (takeScreenshot_tool env (Some sid) timeout s) =
    Ok [TextContent ("Screenshot of screen " +:+ Js.string_of_Z sid
                       +:+ " captured successfully");
        ImageContent v "image/png"] /\
  In (ExecCmd (darwin_main_cmd (screenshotPath_at env (host s)))
        (Some (timeout_or_zero (tool_options sid timeout))))
     (new_events (host s) (host (snd (takeScreenshot_tool env (Some sid) timeout s)))) /\
  (forall cmd t,
     In (ExecCmd cmd (Some t))
        (new_events (host s) (host (snd (takeScreenshot_tool env (Some sid) timeout s)))) ->
     cmd = darwin_main_cmd (screenshotPath_at env (host s))).
Proof.
  intros Hp Hg Hnot Hne Hv.
  rewrite (takeScreenshot_tool_ok env (Some sid) timeout s v Hv). cbn [fst snd host].
  split; [reflexivity |].
  assert (Hcond : existsb (fun screen => (id screen =? sid)%Z) screens || (sid =? 1)%Z
                  = false).
  { apply orb_false_intro; [| apply Z.eqb_neq, Hne].
    destruct (existsb _ screens) eqn:He; [| reflexivity].
    exfalso. apply Hnot. apply existsb_exists in He as [d [Hd Heq]].
    apply Z.eqb_eq in Heq. apply in_map_iff. exists d. auto. }
  pose proof (select_command_darwin_eq env sid (screenshotPath_at env (host s))
                (tick (host s)) screens w1 Hp Hg) as Hsel.
  rewrite Hcond in Hsel.
  destruct (takeScreenshot_after_select env EmptyString (tool_options sid timeout)
              (host s) _ _ Hsel) as [rest [Hr Fr]].
  pose proof (getAvailableScreens_extends env (tick (host s))) as [evs0 [H0 F0]].
  rewrite Hg in H0. cbn [snd] in H0. change (trace (tick (host s))) with (trace (host s)) in H0.
  cbn [trace record_event] in Hr. rewrite H0, <- !app_assoc in Hr.
  apply new_events_app in Hr. rewrite Hr. split.
  - apply in_or_app. right. right. left. reflexivity.
  - intros cmd t Hin. apply in_app_or in Hin as [Hin | Hin].
    + rewrite forallb_forall in F0. specialize (F0 _ Hin). discriminate.
    + destruct Hin as [Hin | [Hin | Hin]]; [discriminate | |].
      * inversion Hin. reflexivity.
      * rewrite forallb_forall in Fr. specialize (Fr _ Hin). discriminate.
Qed.

Lemma degraded_capture_witness :
  os_platform (Scenario.darwin Scenario.two_types (Err "Command failed")) = "darwin" /\
  fst (takeScreenshot_tool (Scenario.darwin Scenario.two_types (Err "Command failed"))
         (Some 99) None (Cases.server Scenario.empty_world)) =
    Ok [TextContent "Screenshot of screen 99 captured successfully";
        ImageContent "iVBORw==" "image/png"] /\
  In (ExecCmd (darwin_main_cmd Scenario.shot) (Some 0))
     (new_events Scenario.empty_world
        (host (snd (takeScreenshot_tool
                      (Scenario.darwin Scenario.two_types (Err "Command failed"))
                      (Some 99) None (Cases.server Scenario.empty_world))))).
Proof.
  split; [reflexivity |].
  destruct (degraded_capture_is_confirmed_under_the_requested_id
              (Scenario.darwin Scenario.two_types (Err "Command failed"))
              99 None (Cases.server Scenario.empty_world)
              [ {| id := 1; description := "OLED" |} ]
              (snd (getAvailableScreens
                      (Scenario.darwin Scenario.two_types (Err "Command failed"))
                      (tick Scenario.empty_world)))
              "iVBORw==" eq_refl eq_refl) as [H1 [H2 _]].
  - intros [H | []]. discriminate.
  - discriminate.
  - reflexivity.
  - split; [exact H1 | exact H2].
Defined.

(** X12.  On [darwin] every capture starts with the introspection
    command, run without any timeout whatever timeout the caller gave:
    the [timeout] option bounds the capture command only, not the
    enumeration that comes before it. *)
Theorem timeout_does_not_bound_the_enumeration
    (env : Env) (url : string) (options : Options) (w : World) :
  os_platform env = "darwin" ->
  exists tail,
    new_events w (snd (takeScreenshot env url options w)) =
      ExecCmd introspection_cmd None :: tail.
Proof.
  intros Hp.
  destruct (enumeration_events_darwin env (tick w) Hp) as [tail0 [Ht0 _]].
  pose proof (getAvailableScreens_extends env (tick w)) as Hext.
  apply extends_new_events in Hext as [Htr _]. rewrite Ht0 in Htr.
  change (trace (tick w)) with (trace w) in Htr.
  destruct (getAvailableScreens_ok env (tick w)) as [screens Hv].
  destruct (getAvailableScreens env (tick w)) as [r0 w1] eqn:Hg.
  cbn [fst snd] in Hv, Htr. subst r0.
  pose proof (select_command_darwin_eq env (resolve_screenId options)
                (screenshotPath_at env w) (tick w) screens w1 Hp Hg) as Hsel.
  destruct (existsb _ screens || (resolve_screenId options =? 1)%Z).
  - destruct (takeScreenshot_after_select env url options w _ _ Hsel) as [rest [Hr _]].
    rewrite Htr in Hr. eexists.
    apply new_events_app. rewrite Hr. simpl. rewrite <- app_assoc. reflexivity.
  - destruct (takeScreenshot_after_select env url options w _ _ Hsel) as [rest [Hr _]].
    cbn [trace record_event] in Hr. rewrite Htr in Hr.
    eexists.
    apply new_events_app. rewrite Hr. simpl. rewrite <- !app_assoc. reflexivity.
Qed.

Lemma timeout_enumeration_witness :
  os_platform (Scenario.darwin Scenario.two_types (Err "Command failed")) = "darwin" /\
  exists tail,
    new_events Scenario.empty_world
      (snd (takeScreenshot (Scenario.darwin Scenario.two_types (Err "Command failed"))
              EmptyString (Scenario.options_for (Some 1) (Some 5000))
              Scenario.empty_world)) =
      ExecCmd introspection_cmd None :: tail.
Proof.
  split; [reflexivity |].
  destruct (timeout_does_not_bound_the_enumeration
              (Scenario.darwin Scenario.two_types (Err "Command failed"))
              EmptyString (Scenario.options_for (Some 1) (Some 5000))
              Scenario.empty_world eq_refl) as [tail H].
  exists tail. exact H.
Defined.

(** ** The type of a section *)

Lemma second_trimmed_or_nonempty (xs : list string) (dflt : string) :
  Js.is_empty dflt = false -> Js.is_empty (Js.second_trimmed_or xs dflt) = false.
Proof.
  intros Hd. unfold Js.second_trimmed_or.
  destruct (xs !! 1%nat) as [x |]; [| exact Hd].
  destruct (Js.is_empty (Js.trim x)) eqn:Hx; [exact Hd | exact Hx].
Qed.

Lemma scan_keeps_type (lines : list string) : forall f,
  Js.is_empty (displayType f) = false \/ existsb (carries DisplayType) lines = true ->
  Js.is_empty (displayType (fold_left scan_line lines f)) = false.
Proof.
  induction lines as [| line lines IH]; intros f H.
  - destruct H as [H | H]; [exact H | discriminate].
  - simpl. apply IH.
    destruct (carries DisplayType line) eqn:Hc.
    + left. change (displayType (scan_line f line))
        with (field DisplayType (scan_line f line)).
      rewrite scan_line_carries by exact Hc.
      apply second_trimmed_or_nonempty. reflexivity.
    + change (displayType (scan_line f line))
        with (field DisplayType (scan_line f line)).
      rewrite scan_line_other by exact Hc.
      destruct H as [H | H]; [left; exact H |].
      simpl in H. rewrite Hc in H. right. exact H.
Qed.

Lemma append_empty_r (a : string) : a +:+ EmptyString = a.
Proof.
  induction a as [| c a IH]; [reflexivity |].
  change (String c (a +:+ EmptyString) = String c a). rewrite IH. reflexivity.
Qed.

(** X13.  A section in which some line counts for the type label has a
    type that is not empty: a blank value is replaced by [Unknown].
    Its description is therefore its name when a name was found and its
    type otherwise, followed by the resolution in parentheses when one
    was found; the word [Display] is only used for sections without any
    type line. *)
Theorem typed_section_is_described_by_name_or_type (lines : list string) :
  existsb (carries DisplayType) lines = true ->
  Js.is_empty (displayType (scan_lines lines)) = false /\
  describe (scan_lines lines) =
    (if Js.is_empty (displayName (scan_lines lines))
     then displayType (scan_lines lines)
     else displayName (scan_lines lines))
    +:+ (if Js.is_empty (resolution (scan_lines lines)) then EmptyString
         else " (" +:+ resolution (scan_lines lines) +:+ ")").
Proof.
  intros H.
  assert (Ht : Js.is_empty (displayType (scan_lines lines)) = false).
  { apply scan_keeps_type. right. exact H. }
  split; [exact Ht |].
  unfold describe. rewrite Ht.
  destruct (Js.is_empty (displayName (scan_lines lines)));
    destruct (Js.is_empty (resolution (scan_lines lines))); simpl;
    rewrite ?append_empty_r; reflexivity.
Qed.

Lemma typed_section_witness :
  existsb (carries DisplayType) ["Display Type:"; "Resolution: 1 x 2"] = true /\
  describe (scan_lines ["Display Type:"; "Resolution: 1 x 2"]) = "Unknown (1 x 2)".
Proof.
  split; [reflexivity |].
  destruct (typed_section_is_described_by_name_or_type
              ["Display Type:"; "Resolution: 1 x 2"] eq_refl) as [_ H].
  rewrite H. reflexivity.
Defined.
